(** * Host-liveness sweep of the ping scripts (ping.py, pingv9.py, rtsv7.py)

    A shallow embedding of the sweep: [ping_host], the [as_completed]
    collection loop of [main], the progress counters of pingv9.py, the
    line loader, the Excel report rows and the log file with the
    retention purge of pingv9.py. *)

From Stdlib Require Import String Ascii List ZArith QArith Permutation Lia Bool.
From Stdlib Require Import DecimalString DecimalNat.
Import ListNotations.
Open Scope nat_scope.
Open Scope string_scope.

(* ------------------------------------------------------------------ *)
(** ** Python values and the outcomes of the library calls *)

(** A value returned by [ping3.ping(ip)] (its docstring: the delay,
    [False] on error and [None] on timeout). *)
Inductive py_value :=
| PyNone
| PyFalse
| PyFloat (x : Q).

(** Python truthiness ([if response]): a float is true iff it is not 0. *)
Definition truthy (v : py_value) : bool :=
  match v with
  | PyNone => false
  | PyFalse => false
  | PyFloat x => negb (Qeq_bool x 0%Q)
  end.

(** What [socket.gethostbyname(hostname)] does: return an address,
    raise [socket.gaierror], or raise another exception (e.g. a
    [UnicodeError] for an over-long label) with its [str(exc)]. *)
Inductive resolve_outcome :=
| Resolved (ip : string)
| GaiError
| ResolveRaises (msg : string).

(** What [ping3.ping(ip)] does: return a value, raise
    [ping3.errors.HostUnknown], or raise another exception. *)
Inductive probe_outcome :=
| Returns (v : py_value)
| HostUnknown
| ProbeRaises (msg : string).

(** A future's outcome: [future.result()] returns or raises. *)
Inductive task_result (A : Type) :=
| Done (a : A)
| Raised (msg : string).
Arguments Done {A} a.
Arguments Raised {A} msg.

(** The tuple [(hostname, ip, status)] returned by [ping_host]. *)
Record row := mkRow { r_host : string; r_ip : string; r_status : string }.

(** [ping_host] of ping.py / pingv9.py; [bad_ip] is the placeholder put
    in the IP column when the except branch runs ('N/A' in ping.py,
    'Bad Host' in pingv9.py). *)
Definition ping_host_gen (bad_ip : string) (res : resolve_outcome)
    (probe : string -> probe_outcome) (hostname : string) : task_result row :=
  match res with
  | Resolved ip =>
      match probe ip with
      | Returns response =>
          Done (mkRow hostname ip (if truthy response then "online" else "offline"))
      | HostUnknown => Done (mkRow hostname bad_ip "offline")
      | ProbeRaises e => Raised e
      end
  | GaiError => Done (mkRow hostname bad_ip "offline")
  | ResolveRaises e => Raised e
  end.

Definition ping_host := ping_host_gen "N/A".
Definition ping_host_v9 := ping_host_gen "Bad Host".

(** [create_excel]: the header row followed by one row per tuple. *)
Definition excel_header : list string := ["HostName"; "IP"; "Online/Offline"].
Definition row_cells (r : row) : list string := [r_host r; r_ip r; r_status r].
Definition create_excel (data : list row) : list (list string) :=
  excel_header :: map row_cells data.

Definition nat_to_string (n : nat) : string :=
  NilEmpty.string_of_uint (Nat.to_uint n).

Definition exception_message (hostname msg : string) : string :=
  hostname ++ " generated an exception: " ++ msg.

(* ------------------------------------------------------------------ *)
(** ** The collection loop of [main]

    [resolve i h] and [probe i ip] give what the library calls do in the
    task submitted for the [i]-th hostname; [order] is the order in which
    [as_completed] yields the futures. *)

Section Sweep.

Variable resolve : nat -> string -> resolve_outcome.
Variable probe : nat -> string -> probe_outcome.
Variable hostnames : list string.

Definition host_at (i : nat) : string := nth i hostnames "".

(** The future of task [i] in ping.py / pingv9.py. *)
Definition task (i : nat) : task_result row :=
  ping_host (resolve i (host_at i)) (probe i) (host_at i).
Definition task_v9 (i : nat) : task_result row :=
  ping_host_v9 (resolve i (host_at i)) (probe i) (host_at i).

(** ping.py lines 46-55: [results.append(result)] or [log_message(...)]. *)
Fixpoint collect (order : list nat) (results : list row) (log : list string)
    : list row * list string :=
  match order with
  | [] => (results, log)
  | i :: rest =>
      match task i with
      | Done r => collect rest (results ++ [r]) log
      | Raised e => collect rest results (log ++ [exception_message (host_at i) e])
      end
  end.

(** The progress counters of pingv9.py. *)
Record counters := mkCounters {
  completed_count : nat; online_count : nat;
  offline_count : nat; bad_host_count : nat }.

Definition counters0 := mkCounters 0 0 0 0.

(** [update_progress(status, ip)], pingv9.py lines 112-123. *)
Definition update_progress (status ip : string) (c : counters) : counters :=
  let '(mkCounters cc on off bad) := c in
  if String.eqb status "online" then mkCounters (S cc) (S on) off bad
  else if String.eqb ip "Bad Host" then mkCounters (S cc) on off (S bad)
  else mkCounters (S cc) on (S off) bad.

(** pingv9.py lines 125-136: the try / except / finally around each
    future. *)
Fixpoint collect_v9 (order : list nat) (results : list row) (c : counters)
    (log : list string) : list row * counters * list string :=
  match order with
  | [] => (results, c, log)
  | i :: rest =>
      match task_v9 i with
      | Done r =>
          collect_v9 rest (results ++ [r])
            (update_progress "offline" "Bad Host"
               (update_progress (r_status r) (r_ip r) c)) log
      | Raised e =>
          collect_v9 rest results (update_progress "offline" "Bad Host" c)
            (log ++ [exception_message (host_at i) e])
      end
  end.

End Sweep.

(* ------------------------------------------------------------------ *)
(** ** Reading the input file: [[line.strip() for line in file]] *)

Definition LF : ascii := ascii_of_nat 10.
Definition CR : ascii := ascii_of_nat 13.

(** Text mode with universal newlines: ["\r\n"] and ["\r"] read as ["\n"]. *)
Fixpoint translate_newlines (s : string) : string :=
  match s with
  | EmptyString => EmptyString
  | String c rest =>
      if Ascii.eqb c CR then
        match rest with
        | String c' rest' =>
            if Ascii.eqb c' LF then String LF (translate_newlines rest')
            else String LF (translate_newlines rest)
        | EmptyString => String LF EmptyString
        end
      else String c (translate_newlines rest)
  end.

(** Iterating a text file: each line keeps its ["\n"]; a last line
    without one is yielded when it is not empty. *)
Fixpoint split_lines (s : string) (cur : string) : list string :=
  match s with
  | EmptyString => match cur with EmptyString => [] | _ => [cur] end
  | String c rest =>
      if Ascii.eqb c LF then (cur ++ String LF EmptyString) :: split_lines rest EmptyString
      else split_lines rest (cur ++ String c EmptyString)
  end.

Definition py_lines (content : string) : list string :=
  split_lines (translate_newlines content) EmptyString.

(** [str.isspace] on the code points 0..255. *)
Definition py_isspace (c : ascii) : bool :=
  let n := nat_of_ascii c in
  (Nat.leb 9 n && Nat.leb n 13) || (Nat.leb 28 n && Nat.leb n 32)
  || Nat.eqb n 133 || Nat.eqb n 160.

Fixpoint drop_space (l : list ascii) : list ascii :=
  match l with
  | [] => []
  | c :: rest => if py_isspace c then drop_space rest else l
  end.

(** [str.strip()]. *)
Definition strip (s : string) : string :=
  string_of_list_ascii
    (rev (drop_space (rev (drop_space (list_ascii_of_string s))))).

Definition load_hostnames (content : string) : list string :=
  map strip (py_lines content).

(* ------------------------------------------------------------------ *)
(** ** The log file of ping.py *)

(** [log_message]: append ["<timestamp> - <message>\n"]. *)
Definition log_append (stamp msg file : string) : string :=
  file ++ stamp ++ " - " ++ msg ++ String LF EmptyString.

Fixpoint log_all (stamp : nat -> string) (k : nat) (msgs : list string)
    (file : string) : string :=
  match msgs with
  | [] => file
  | m :: ms => log_all stamp (S k) ms (log_append (stamp k) m file)
  end.

(** [open(log_file, 'w').close()]. *)
Definition truncate (_ : string) : string := EmptyString.

(** The log file after [main] of ping.py, from the file before the run;
    [stamp k] is the timestamp of the [k]-th [log_message] call and
    [elapsed] the formatted total time. *)
Definition main_ping_log (resolve : nat -> string -> resolve_outcome)
    (probe : nat -> string -> probe_outcome) (stamp : nat -> string)
    (elapsed : string) (content : string) (order : list nat)
    (prior : string) : string :=
  let file0 := truncate prior in
  let hostnames := load_hostnames content in
  let n := nat_to_string (length hostnames) in
  let exc := snd (collect resolve probe hostnames order [] []) in
  log_all stamp 0
    (["Starting to ping " ++ n ++ " hostnames..."] ++ exc ++
     ["Finished pinging. Total time: " ++ elapsed ++ " seconds";
      "Total hostnames/machines pinged: " ++ n])
    file0.

(** The Excel rows written by [main] of ping.py. *)
Definition main_ping_report (resolve : nat -> string -> resolve_outcome)
    (probe : nat -> string -> probe_outcome) (content : string)
    (order : list nat) : list (list string) :=
  create_excel (fst (collect resolve probe (load_hostnames content) order [] [])).

(* ------------------------------------------------------------------ *)
(** ** The subprocess variant of rtsv7.py (lines 1-43) *)

Fixpoint prefixb (p s : string) : bool :=
  match p, s with
  | EmptyString, _ => true
  | String a p', String b s' => Ascii.eqb a b && prefixb p' s'
  | _, _ => false
  end.

(** Python's [needle in haystack]. *)
Fixpoint contains (needle s : string) : bool :=
  prefixb needle s ||
  match s with
  | EmptyString => false
  | String _ s' => contains needle s'
  end.

Record rts_row := mkRtsRow { rts_ip : string; rts_status : string }.

(** [ping(ip)] of rtsv7.py, from the stripped stdout and stderr of the
    ping command. *)
Definition rts_ping (ip stdout stderr : string) : rts_row :=
  let status :=
    if contains "Reply from " stdout then "Online"
    else if contains "could not find host" stderr then "Bad hostname"
    else if contains "Request timed out" stdout then "Request timeout"
    else "Offline" in
  mkRtsRow ip status.

(** The CSV written by rtsv7.py: [executor.map] keeps the input order. *)
Definition rts_csv (ips : list string) (run : string -> string * string)
    : list (list string) :=
  ["IP"; "Status"] ::
  map (fun ip => let r := rts_ping ip (fst (run ip)) (snd (run ip)) in
                 [rts_ip r; rts_status r]) ips.

(* ------------------------------------------------------------------ *)
(** ** The log file of pingv9.py and its retention purge *)

Open Scope Z_scope.

(** A naive [datetime] (no time zone). *)
Record datetime := mkDT {
  dt_year : Z; dt_month : Z; dt_day : Z;
  dt_hour : Z; dt_minute : Z; dt_second : Z; dt_microsecond : Z }.

Definition is_leap (y : Z) : bool :=
  (y mod 4 =? 0) && (negb (y mod 100 =? 0) || (y mod 400 =? 0)).

Definition days_in_month (y m : Z) : Z :=
  if (m =? 4) || (m =? 6) || (m =? 9) || (m =? 11) then 30
  else if m =? 2 then (if is_leap y then 29 else 28)
  else 31.

(** The invariant of [datetime] objects (and the checks [strptime]
    leaves to the [datetime] constructor). *)
Definition valid_dt (t : datetime) : bool :=
  (1 <=? dt_year t) && (dt_year t <=? 9999) &&
  (1 <=? dt_month t) && (dt_month t <=? 12) &&
  (1 <=? dt_day t) && (dt_day t <=? days_in_month (dt_year t) (dt_month t)) &&
  (0 <=? dt_hour t) && (dt_hour t <=? 23) &&
  (0 <=? dt_minute t) && (dt_minute t <=? 59) &&
  (0 <=? dt_second t) && (dt_second t <=? 59) &&
  (0 <=? dt_microsecond t) && (dt_microsecond t <=? 999999).

Definition days_before_year (y : Z) : Z :=
  let y1 := y - 1 in y1 * 365 + y1 / 4 - y1 / 100 + y1 / 400.

Fixpoint days_before_month_aux (y : Z) (k : nat) : Z :=
  match k with
  | O => 0
  | S k' => days_before_month_aux y k' + days_in_month y (Z.of_nat k)
  end.

Definition days_before_month (y m : Z) : Z :=
  days_before_month_aux y (Z.to_nat (m - 1)).

(** [date.toordinal()]. *)
Definition toordinal (t : datetime) : Z :=
  days_before_year (dt_year t) + days_before_month (dt_year t) (dt_month t)
  + dt_day t.

(** A [datetime] as microseconds since 0001-01-01 00:00:00; the
    difference of two of them is the [timedelta] of their subtraction. *)
Definition to_us (t : datetime) : Z :=
  ((toordinal t - 1) * 86400 + dt_hour t * 3600 + dt_minute t * 60
   + dt_second t) * 1000000 + dt_microsecond t.

Definition LOG_RETENTION_DAYS : Z := 7.
(** [timedelta(days=LOG_RETENTION_DAYS)] in microseconds. *)
Definition retention_us : Z := LOG_RETENTION_DAYS * 86400 * 1000000.

(** [strftime('%Y-%m-%d %H:%M:%S')]. *)
Definition digit (k : Z) : ascii := ascii_of_nat (48 + Z.to_nat k).
Definition pad2 (n : Z) : string :=
  String (digit (n / 10)) (String (digit (n mod 10)) EmptyString).
Definition pad4 (n : Z) : string :=
  String (digit (n / 1000)) (String (digit (n / 100 mod 10))
    (String (digit (n / 10 mod 10)) (String (digit (n mod 10)) EmptyString))).

Definition strftime_log (t : datetime) : string :=
  pad4 (dt_year t) ++ "-" ++ pad2 (dt_month t) ++ "-" ++ pad2 (dt_day t)
  ++ " " ++ pad2 (dt_hour t) ++ ":" ++ pad2 (dt_minute t) ++ ":"
  ++ pad2 (dt_second t).

(** [strptime(s, '%Y-%m-%d %H:%M:%S')]: the regular expression that
    [_strptime] builds for the format,
    [(\d\d\d\d)-(1[0-2]|0[1-9]|[1-9])-(3[01]|[12]\d|0[1-9]|[1-9]| [1-9])\s+]
    [(2[0-3]|[0-1]\d|\d):([0-5]\d|\d):(6[0-1]|[0-5]\d|\d)],
    matched with backtracking: each piece lists its matches in the order
    the regex engine tries them, and [re.match] takes the first overall. *)

Definition is_digit (c : ascii) : bool :=
  Nat.leb 48 (nat_of_ascii c) && Nat.leb (nat_of_ascii c) 57.
Definition digit_val (c : ascii) : Z := Z.of_nat (nat_of_ascii c) - 48.
Definition in_range (c : ascii) (lo hi : Z) : bool :=
  is_digit c && (lo <=? digit_val c) && (digit_val c <=? hi).

Local Notation "'let*' x ':=' l 'in' k" := (flat_map (fun x => k) l)
  (at level 200, x name, l at level 100, k at level 200).

Definition p_lit (ch : ascii) (s : string) : list string :=
  match s with
  | String c r => if Ascii.eqb c ch then [r] else []
  | EmptyString => []
  end.

(** [\d\d\d\d] *)
Definition p_year (s : string) : list (Z * string) :=
  match s with
  | String a (String b (String c (String d r))) =>
      if is_digit a && is_digit b && is_digit c && is_digit d
      then [(1000 * digit_val a + 100 * digit_val b + 10 * digit_val c
             + digit_val d, r)]
      else []
  | _ => []
  end.

(** One alternative [X[lo-hi]] of two characters, [X] fixed. *)
Definition alt2 (x : ascii) (lo hi : Z) (s : string) : list (Z * string) :=
  match s with
  | String a (String b r) =>
      if Ascii.eqb a x && in_range b lo hi
      then [(10 * digit_val a + digit_val b, r)] else []
  | _ => []
  end.

(** One alternative [[alo-ahi][blo-bhi]] of two characters. *)
Definition range2 (alo ahi blo bhi : Z) (s : string) : list (Z * string) :=
  match s with
  | String a (String b r) =>
      if in_range a alo ahi && in_range b blo bhi
      then [(10 * digit_val a + digit_val b, r)] else []
  | _ => []
  end.

(** One alternative [[lo-hi]] of one character. *)
Definition range1 (lo hi : Z) (s : string) : list (Z * string) :=
  match s with
  | String a r => if in_range a lo hi then [(digit_val a, r)] else []
  | _ => []
  end.

Definition p_month (s : string) : list (Z * string) :=
  alt2 "1" 0 2 s ++ alt2 "0" 1 9 s ++ range1 1 9 s.

Definition p_day (s : string) : list (Z * string) :=
  alt2 "3" 0 1 s ++ range2 1 2 0 9 s ++ alt2 "0" 1 9 s ++ range1 1 9 s ++
  (let* r := p_lit " " s in range1 1 9 r).

Definition p_hour (s : string) : list (Z * string) :=
  alt2 "2" 0 3 s ++ range2 0 1 0 9 s ++ range1 0 9 s.

Definition p_minute (s : string) : list (Z * string) :=
  range2 0 5 0 9 s ++ range1 0 9 s.

Definition p_second (s : string) : list (Z * string) :=
  alt2 "6" 0 1 s ++ range2 0 5 0 9 s ++ range1 0 9 s.

(** [\s+], greedy: the longest run first. *)
Fixpoint p_spaces (s : string) : list string :=
  match s with
  | String c r => if py_isspace c then p_spaces r ++ [r] else []
  | EmptyString => []
  end.

Definition strptime_matches (s : string) : list (datetime * string) :=
  let* y := p_year s in
  let* s2 := p_lit "-" (snd y) in
  let* mo := p_month s2 in
  let* s4 := p_lit "-" (snd mo) in
  let* d := p_day s4 in
  let* s6 := p_spaces (snd d) in
  let* h := p_hour s6 in
  let* s8 := p_lit ":" (snd h) in
  let* mi := p_minute s8 in
  let* s10 := p_lit ":" (snd mi) in
  let* sec := p_second s10 in
  [(mkDT (fst y) (fst mo) (fst d) (fst h) (fst mi) (fst sec) 0, snd sec)].

(** [None] where [strptime] raises [ValueError]: no match, unconverted
    data left, or an out-of-range date or second. *)
Definition strptime_log (s : string) : option datetime :=
  match strptime_matches s with
  | (t, rest) :: _ =>
      if String.eqb rest EmptyString && valid_dt t then Some t else None
  | [] => None
  end.

(** [s.split(sep)[0]] *)
Fixpoint before_sep (sep s : string) : string :=
  if prefixb sep s then EmptyString
  else match s with
       | EmptyString => EmptyString
       | String c s' => String c (before_sep sep s')
       end.

(** The test in the loop of [purge_old_logs] (pingv9.py lines 58-65). *)
Definition keep_entry (current_time : datetime) (entry : string) : bool :=
  match strptime_log (before_sep " - " entry) with
  | Some entry_time => to_us current_time - to_us entry_time <? retention_us
  | None => false
  end.

(** [purge_old_logs(log_file)], pingv9.py lines 47-69: read the lines,
    keep the recent ones, write them back. *)
Definition purge_old_logs (current_time : datetime) (content : string) : string :=
  String.concat EmptyString (filter (keep_entry current_time) (py_lines content)).

Definition log_entry (now : datetime) (message : string) : string :=
  strftime_log now ++ " - " ++ message.

(** [log_entry + "\n"], the text [log_message] appends. *)
Definition log_line (now : datetime) (message : string) : string :=
  log_entry now message ++ String LF EmptyString.

(** [log_message(message, log_file)] of pingv9.py: [now_w] is the
    [datetime.now()] of line 35, [now_p] the one of line 56. *)
Definition log_message_v9 (now_w now_p : datetime) (message : string)
    (file : string) : string :=
  purge_old_logs now_p (file ++ log_line now_w message).

(** The [datetime] that [strftime] then [strptime] give back: the
    microseconds are not written. *)
Definition drop_microseconds (t : datetime) : datetime :=
  mkDT (dt_year t) (dt_month t) (dt_day t) (dt_hour t) (dt_minute t)
    (dt_second t) 0.

Definition day_us : Z := 86400 * 1000000.

(** Every character of a string satisfies [f]. *)
Fixpoint str_forall (f : ascii -> bool) (s : string) : bool :=
  match s with
  | EmptyString => true
  | String c r => f c && str_forall f r
  end.

(** A character that ends no line. *)
Definition plain_char (c : ascii) : bool :=
  negb (Ascii.eqb c LF) && negb (Ascii.eqb c CR).

Close Scope Z_scope.

(* ------------------------------------------------------------------ *)
(** ** Choosing the input file: [select_txt_file] of pingv9.py (lines
    71-89) and pingV3.py (lines 39-57) *)

(** [s.endswith(suffix)]. *)
Definition endswith (suffix s : string) : bool :=
  let n := String.length s in
  let k := String.length suffix in
  Nat.leb k n && String.eqb (substring (n - k) k s) suffix.

(** The digits loop of CPython's [PyLong_FromString] in base 10: one
    underscore is allowed between two digits; [cnt] counts the digits. *)
Fixpoint scan_digits (l : list ascii) (acc : Z) (cnt : nat) (prev_us : bool)
    : option (Z * nat) :=
  match l with
  | [] => if prev_us then None else Some (acc, cnt)
  | c :: r =>
      if is_digit c then scan_digits r (10 * acc + digit_val c)%Z (S cnt) false
      else if Ascii.eqb c "_" then
        (if prev_us then None else scan_digits r acc cnt true)
      else None
  end.

(** The whitespace [int()] skips around the number.  CPython first maps
    every non-ASCII space to ' ' and keeps every ASCII character as it is
    ([_PyUnicode_TransformDecimalAndSpaceToASCII]); [PyLong_FromString]
    then skips [Py_ISSPACE], the ASCII codes 9..13 and 32.  On the code
    points 0..255 this is 9..13, 32, 133 and 160, not 28..31. *)
Definition int_space (c : ascii) : bool :=
  let n := nat_of_ascii c in
  (Nat.leb 9 n && Nat.leb n 13) || Nat.eqb n 32 || Nat.eqb n 133 || Nat.eqb n 160.

Fixpoint drop_int_space (l : list ascii) : list ascii :=
  match l with
  | [] => []
  | c :: rest => if int_space c then drop_int_space rest else l
  end.

(** The characters of [s] between the whitespace [int()] skips. *)
Definition int_strip (s : string) : list ascii :=
  rev (drop_int_space (rev (drop_int_space (list_ascii_of_string s)))).

(** [int(s)] on a [str] ([None] where it raises [ValueError]): surrounding
    whitespace is skipped, then an optional sign and the digits; a string
    of more than 4300 digits is refused ([sys.get_int_max_str_digits()]). *)
Definition py_int (s : string) : option Z :=
  let l := int_strip s in
  let '(neg, body) :=
    match l with
    | c :: r => if Ascii.eqb c "-" then (true, r)
                else if Ascii.eqb c "+" then (false, r) else (false, l)
    | [] => (false, l)
    end in
  match body with
  | c :: r =>
      if is_digit c then
        match scan_digits r (digit_val c) 1 false with
        | Some (v, cnt) =>
            if Nat.leb cnt 4300 then Some (if neg then (- v)%Z else v) else None
        | None => None
        end
      else None
  | [] => None
  end.

(** How [select_txt_file] ends: [None] for want of a file, the chosen
    file, or the [EOFError] that [input()] raises at the end of input
    (only [ValueError] is caught). *)
Inductive select_result :=
| NoTxtFile
| Chosen (f : string)
| InputEOF.

Definition choice_prompt : string :=
  "Enter the number corresponding to the file: ".

(** The [while True] loop over the lines the user types; the first
    component is what is written to the terminal, one item per write. *)
Fixpoint choose_loop (txt_files inputs : list string)
    : list string * select_result :=
  match inputs with
  | [] => ([choice_prompt], InputEOF)
  | s :: rest =>
      match py_int s with
      | Some choice =>
          if (1 <=? choice)%Z && (choice <=? Z.of_nat (length txt_files))%Z
          then ([choice_prompt],
                Chosen (nth (Z.to_nat (choice - 1)) txt_files EmptyString))
          else
            let (out, r) := choose_loop txt_files rest in
            (choice_prompt ::
               ("Invalid choice. Please enter a number from the list." ++
                String LF EmptyString) :: out, r)
      | None =>
          let (out, r) := choose_loop txt_files rest in
          (choice_prompt ::
             ("Invalid input. Please enter a number." ++ String LF EmptyString)
             :: out, r)
      end
  end.

(** [for i, file in enumerate(txt_files, 1): print(f"{i}. {file}")] *)
Fixpoint menu_lines (i : nat) (files : list string) : list string :=
  match files with
  | [] => []
  | f :: fs =>
      (nat_to_string i ++ ". " ++ f ++ String LF EmptyString)
        :: menu_lines (S i) fs
  end.

(** [select_txt_file()], from the names [os.listdir()] returns and the
    lines typed at the prompt. *)
Definition select_txt_file (listing inputs : list string)
    : list string * select_result :=
  let txt_files := filter (endswith ".txt") listing in
  match txt_files with
  | [] => (["No .txt files found in the current directory." ++
            String LF EmptyString], NoTxtFile)
  | _ =>
      let (out, r) := choose_loop txt_files inputs in
      (("Select a .txt file from the following list:" ++ String LF EmptyString)
         :: menu_lines 1 txt_files ++ out, r)
  end.

(* ------------------------------------------------------------------ *)
(** ** [main] of pingV3.py and of pingv9.py *)

(** What a run leaves: the log file and, when a report is written, its
    file name with its rows. *)
Record run_result := mkRun {
  run_log : string;
  run_report : option (string * list (list string)) }.

Definition output_file_name (date_str : string) : string :=
  "ping_results_" ++ date_str ++ ".xlsx".

(** [main(log_file)] of pingV3.py: [read_file] gives the contents of a
    file, [stamp k] the timestamp of the [k]-th [log_message], [elapsed]
    the formatted total time and [date_str] the
    [strftime('%d-%b-%y_%H-%M-%S')] of the report's name. *)
Definition main_v3 (listing inputs : list string) (read_file : string -> string)
    (resolve : nat -> string -> resolve_outcome)
    (probe : nat -> string -> probe_outcome) (order : list nat)
    (stamp : nat -> string) (elapsed date_str : string) (prior : string)
    : run_result :=
  match snd (select_txt_file listing inputs) with
  | Chosen input_file =>
      let hostnames := load_hostnames (read_file input_file) in
      let n := nat_to_string (length hostnames) in
      let '(results, exc) := collect resolve probe hostnames order [] [] in
      let output_file := output_file_name date_str in
      mkRun
        (log_all stamp 0
           (["Starting to ping " ++ n ++ " hostnames..."] ++ exc ++
            ["Finished pinging. Total time: " ++ elapsed ++ " seconds";
             "Total hostnames/machines pinged: " ++ n;
             "Output Excel file: " ++ output_file])
           (truncate prior))
        (Some (output_file, create_excel results))
  | _ => mkRun prior None
  end.

(** Successive [log_message] calls of pingv9.py; [times k] holds the two
    [datetime.now()] of the [k]-th call. *)
Fixpoint log_all_v9 (times : nat -> datetime * datetime) (k : nat)
    (msgs : list string) (file : string) : string :=
  match msgs with
  | [] => file
  | m :: ms =>
      log_all_v9 times (S k) ms
        (log_message_v9 (fst (times k)) (snd (times k)) m file)
  end.

(** [main(log_file)] of pingv9.py. *)
Definition main_v9 (listing inputs : list string) (read_file : string -> string)
    (resolve : nat -> string -> resolve_outcome)
    (probe : nat -> string -> probe_outcome) (order : list nat)
    (times : nat -> datetime * datetime) (elapsed date_str : string)
    (prior : string) : run_result :=
  match snd (select_txt_file listing inputs) with
  | Chosen input_file =>
      let hostnames := load_hostnames (read_file input_file) in
      let n := nat_to_string (length hostnames) in
      let '(results, c, exc) :=
        collect_v9 resolve probe hostnames order [] counters0 [] in
      let output_file := output_file_name date_str in
      mkRun
        (log_all_v9 times 0
           (["Starting to ping " ++ n ++ " hostnames..."] ++ exc ++
            ["Finished pinging. Total time: " ++ elapsed ++ " seconds";
             "Total hostnames/machines pinged: " ++ n;
             "Online: " ++ nat_to_string (online_count c) ++ " | Offline: " ++
               nat_to_string (offline_count c) ++ " | Bad Host: " ++
               nat_to_string (bad_host_count c);
             "Output Excel file: " ++ output_file])
           prior)
        (Some (output_file, create_excel results))
  | _ => mkRun prior None
  end.

(** The lines Python's line iteration yields from a text without ["\r"]:
    each ends in ["\n"] and holds no other line break, but a last line
    without one. *)
Inductive wf_lines : list string -> Prop :=
| wf_nil : wf_lines []
| wf_last (b : string) :
    str_forall plain_char b = true -> b <> EmptyString -> wf_lines [b]
| wf_cons (b : string) (ls : list string) :
    str_forall plain_char b = true -> wf_lines ls ->
    wf_lines ((b ++ String LF EmptyString) :: ls).

(** A text whose first character is not a line feed. *)
Definition no_lf_head (s : string) : bool :=
  match s with String c _ => negb (Ascii.eqb c LF) | EmptyString => true end.

(** A character other than a line feed. *)
Definition no_lf (c : ascii) : bool := negb (Ascii.eqb c LF).


(* ------------------------------------------------------------------ *)
(** ** What the collection loop produces, future by future *)

Section SweepRows.

Variable resolve : nat -> string -> resolve_outcome.
Variable probe : nat -> string -> probe_outcome.
Variable hostnames : list string.

(** The rows appended and the messages logged by the loop, per future. *)
Definition done_rows (order : list nat) : list row :=
  flat_map (fun i => match task resolve probe hostnames i with
                     | Done r => [r] | Raised _ => [] end) order.

Definition raised_msgs (order : list nat) : list string :=
  flat_map (fun i => match task resolve probe hostnames i with
                     | Done _ => []
                     | Raised e => [exception_message (host_at hostnames i) e]
                     end) order.

(** The same for the loop of pingv9.py, whose [ping_host] puts
    'Bad Host' in the IP column. *)
Definition done_rows_v9 (order : list nat) : list row :=
  flat_map (fun i => match task_v9 resolve probe hostnames i with
                     | Done r => [r] | Raised _ => [] end) order.

Definition returns (i : nat) : bool :=
  match task resolve probe hostnames i with Done _ => true | Raised _ => false end.

End SweepRows.

(* ================================================================== *)
(** * Properties of the sweep *)

Open Scope list_scope.

Section SweepFacts.

Variable resolve : nat -> string -> resolve_outcome.
Variable probe : nat -> string -> probe_outcome.
Variable hostnames : list string.

Lemma collect_spec : forall order acc log,
  collect resolve probe hostnames order acc log =
  (acc ++ done_rows resolve probe hostnames order, log ++ raised_msgs resolve probe hostnames order).
Proof.
  induction order as [|i order IH]; intros acc log; simpl.
  - now rewrite !app_nil_r.
  - unfold done_rows, raised_msgs in *; simpl.
    destruct (task resolve probe hostnames i) as [r|e]; rewrite IH; simpl;
      now rewrite <- !app_assoc.
Qed.

Lemma collect_v9_rows : forall order acc c log,
  fst (fst (collect_v9 resolve probe hostnames order acc c log)) =
  acc ++ done_rows_v9 resolve probe hostnames order.
Proof.
  induction order as [|i order IH]; intros acc c log; simpl.
  - now rewrite app_nil_r.
  - unfold done_rows_v9 in *; simpl.
    destruct (task_v9 resolve probe hostnames i) as [r|e]; rewrite IH; simpl;
      now rewrite <- ?app_assoc.
Qed.

Lemma done_raised_length : forall order,
  length (done_rows resolve probe hostnames order) + length (raised_msgs resolve probe hostnames order) = length order.
Proof.
  unfold done_rows, raised_msgs.
  induction order as [|i order IH]; simpl; [reflexivity|].
  destruct (task resolve probe hostnames i); simpl; lia.
Qed.

Lemma done_rows_length : forall order,
  length (done_rows resolve probe hostnames order) = length (filter (returns resolve probe hostnames) order).
Proof.
  unfold done_rows, returns.
  induction order as [|i order IH]; simpl; [reflexivity|].
  destruct (task resolve probe hostnames i); simpl; auto.
Qed.

Lemma raised_msgs_nil : forall order,
  (forall i, In i order -> returns resolve probe hostnames i = true) -> raised_msgs resolve probe hostnames order = [].
Proof.
  unfold raised_msgs, returns.
  induction order as [|i order IH]; intros Hall; simpl; [reflexivity|].
  specialize (Hall i (or_introl eq_refl)) as Hi.
  destruct (task resolve probe hostnames i); [|discriminate].
  apply IH; intros j Hj; apply Hall; now right.
Qed.

Lemma in_order_iff (order : list nat) :
  Permutation order (seq 0 (length hostnames)) ->
  forall i, In i order <-> i < length hostnames.
Proof.
  intros Hp i; split; intro H.
  - apply (Permutation_in _ Hp), in_seq in H; lia.
  - apply (Permutation_in _ (Permutation_sym Hp)), in_seq; lia.
Qed.

Lemma in_done_rows : forall order r,
  In r (done_rows resolve probe hostnames order) <->
  exists i, In i order /\ task resolve probe hostnames i = Done r.
Proof.
  intros order r; unfold done_rows; rewrite in_flat_map; split.
  - intros [i [Hi Hr]]; exists i; split; [exact Hi|].
    destruct (task resolve probe hostnames i); simpl in Hr;
      [destruct Hr as [->|[]]; reflexivity | destruct Hr].
  - intros [i [Hi Ht]]; exists i; split; [exact Hi|]; rewrite Ht; now left.
Qed.

Lemma in_raised_msgs : forall order m,
  In m (raised_msgs resolve probe hostnames order) <->
  exists i e, In i order /\ task resolve probe hostnames i = Raised e /\
              m = exception_message (host_at hostnames i) e.
Proof.
  intros order m; unfold raised_msgs; rewrite in_flat_map; split.
  - intros [i [Hi Hm]]; exists i.
    destruct (task resolve probe hostnames i) as [r|e]; simpl in Hm;
      [destruct Hm | destruct Hm as [<-|[]]].
    exists e; auto.
  - intros [i [e [Hi [Ht ->]]]]; exists i; split; [exact Hi|];
      rewrite Ht; now left.
Qed.

End SweepFacts.

Lemma filter_all_true {A} (f : A -> bool) (l : list A) :
  (forall x, In x l -> f x = true) -> filter f l = l.
Proof.
  induction l as [|x l IH]; intros H; simpl; [reflexivity|].
  rewrite (H x (or_introl eq_refl)), IH; [reflexivity|].
  intros y Hy; apply H; now right.
Qed.

(* ------------------------------------------------------------------ *)
(** ** C1: one result per task that returns *)

(** C1 (corrected). For every input list and every completion order of
    [as_completed], the loop of ping.py collects exactly one result per
    future that returns, in completion order, and none for a future that
    raises: that one only gets the log message
    ['<host> generated an exception: <error>'], also in completion
    order.  The results number [N] minus the raising tasks, [N] when no
    task raises. *)
Theorem collect_one_result_per_returning_task :
  forall resolve probe hostnames order,
  Permutation order (seq 0 (length hostnames)) ->
  let '(results, errors) := collect resolve probe hostnames order [] [] in
  results = flat_map (fun i => match task resolve probe hostnames i with
                               | Done r => [r] | Raised _ => [] end) order /\
  errors = flat_map (fun i => match task resolve probe hostnames i with
                              | Done _ => []
                              | Raised e =>
                                  [String.append (host_at hostnames i)
                                     (String.append " generated an exception: " e)]
                              end) order /\
  Permutation results (done_rows resolve probe hostnames (seq 0 (length hostnames))) /\
  length results =
    length (filter (returns resolve probe hostnames) (seq 0 (length hostnames))) /\
  length results + length errors = length hostnames /\
  ((forall i, i < length hostnames -> returns resolve probe hostnames i = true) ->
   length results = length hostnames).
Proof.
  intros resolve probe hostnames order Hp.
  rewrite collect_spec; simpl.
  split; [reflexivity|]. split; [reflexivity|].
  assert (Hd : Permutation (done_rows resolve probe hostnames order)
                 (done_rows resolve probe hostnames (seq 0 (length hostnames))))
    by (apply Permutation_flat_map; exact Hp).
  assert (Hsum := done_raised_length resolve probe hostnames order).
  rewrite (Permutation_length Hp), length_seq in Hsum.
  split; [exact Hd|]. split.
  { rewrite (Permutation_length Hd). apply done_rows_length. }
  split; [exact Hsum|].
  intros Hall.
  rewrite raised_msgs_nil in Hsum; [simpl in Hsum; lia|].
  intros i Hi; apply Hall; now apply (in_order_iff hostnames order Hp).
Qed.

(** A run over two hosts where the second one's probe raises. *)
Lemma collect_one_result_per_returning_task_witness :
  Permutation [1; 0] (seq 0 (length ["a"; "b"])) /\
  let '(results, errors) :=
    collect (fun _ _ => Resolved "10.0.0.1")
      (fun i _ => if Nat.eqb i 1 then ProbeRaises "boom" else Returns PyNone)
      ["a"; "b"] [1; 0] [] [] in
  results = flat_map (fun i => match task (fun _ _ => Resolved "10.0.0.1")
                         (fun i _ => if Nat.eqb i 1 then ProbeRaises "boom" else Returns PyNone)
                         ["a"; "b"] i with
                               | Done r => [r] | Raised _ => [] end) [1; 0] /\
  errors = flat_map (fun i => match task (fun _ _ => Resolved "10.0.0.1")
                         (fun i _ => if Nat.eqb i 1 then ProbeRaises "boom" else Returns PyNone)
                         ["a"; "b"] i with
                              | Done _ => []
                              | Raised e =>
                                  [String.append (host_at ["a"; "b"] i)
                                     (String.append " generated an exception: " e)]
                              end) [1; 0] /\
  Permutation results
    (done_rows (fun _ _ => Resolved "10.0.0.1")
       (fun i _ => if Nat.eqb i 1 then ProbeRaises "boom" else Returns PyNone)
       ["a"; "b"] (seq 0 (length ["a"; "b"]))) /\
  length results =
    length (filter (returns (fun _ _ => Resolved "10.0.0.1")
       (fun i _ => if Nat.eqb i 1 then ProbeRaises "boom" else Returns PyNone)
       ["a"; "b"]) (seq 0 (length ["a"; "b"]))) /\
  length results + length errors = length ["a"; "b"] /\
  ((forall i, i < length ["a"; "b"] ->
      returns (fun _ _ => Resolved "10.0.0.1")
        (fun i _ => if Nat.eqb i 1 then ProbeRaises "boom" else Returns PyNone)
        ["a"; "b"] i = true) ->
   length results = length ["a"; "b"]).
Proof.
  split; [simpl; apply perm_swap|].
  apply (collect_one_result_per_returning_task _ _ ["a"; "b"] [1; 0]).
  simpl; apply perm_swap.
Defined.

(** C1, as stated, fails: one host whose probe raises gives no result,
    only a log message. *)
Lemma collect_drops_raising_task :
  (collect (fun _ _ => Resolved "10.0.0.7")
     (fun _ _ => ProbeRaises "[Errno 1] Operation not permitted")
     ["printer01"] [0] [] []) =
  (nil, ["printer01 generated an exception: [Errno 1] Operation not permitted"]) /\
  length ["printer01"] = 1.
Proof. split; reflexivity. Qed.

(* ------------------------------------------------------------------ *)
(** ** C2: the statuses of [ping_host] *)

(** C2 (corrected). In ping.py and pingv9.py every result of [ping_host]
    has status 'online' or 'offline': there is no BadHost status.  A
    name that fails to resolve gets the placeholder IP ([bad_ip]: 'N/A'
    or 'Bad Host') and 'offline'; for a name that resolves to an address
    other than the placeholder, the IP column holds the placeholder iff
    ping3 raised [HostUnknown], and a placeholder IP comes with
    'offline'. *)
Theorem ping_host_status_two_way :
  forall bad_ip res probe hostname r,
  ping_host_gen bad_ip res probe hostname = Done r ->
  r_host r = hostname /\
  (r_status r = "online" \/ r_status r = "offline") /\
  (res = GaiError -> r_ip r = bad_ip /\ r_status r = "offline") /\
  (forall ip, res = Resolved ip -> ip <> bad_ip ->
     (r_ip r = bad_ip <-> probe ip = HostUnknown) /\
     (r_ip r = bad_ip -> r_status r = "offline")).
Proof.
  intros bad_ip res probe hostname r H.
  destruct res as [ip0| |e]; simpl in H.
  - destruct (probe ip0) as [v| |e] eqn:Hp; inversion H; subst; clear H;
      simpl; refine (conj eq_refl (conj _ (conj _ _))).
    + destruct (truthy v); auto.
    + discriminate.
    + intros ip Hip Hne; injection Hip as <-; rewrite Hp.
      split; [split; intro Hx; [contradiction | congruence]|].
      intro Hx; contradiction.
    + now right.
    + discriminate.
    + intros ip Hip Hne; injection Hip as <-; rewrite Hp.
      split; [split; auto | auto].
  - inversion H; subst; simpl.
    refine (conj eq_refl (conj (or_intror eq_refl) (conj _ _))); auto.
    discriminate.
  - discriminate.
Qed.

Lemma ping_host_status_two_way_witness :
  ping_host_gen "N/A" GaiError (fun _ => Returns PyNone) "no-such-host.invalid" =
    Done (mkRow "no-such-host.invalid" "N/A" "offline") /\
  let r := mkRow "no-such-host.invalid" "N/A" "offline" in
  r_host r = "no-such-host.invalid" /\
  (r_status r = "online" \/ r_status r = "offline") /\
  (GaiError = GaiError -> r_ip r = "N/A" /\ r_status r = "offline") /\
  (forall ip, GaiError = Resolved ip -> ip <> "N/A" ->
     (r_ip r = "N/A" <-> (fun _ => Returns PyNone) ip = HostUnknown) /\
     (r_ip r = "N/A" -> r_status r = "offline")).
Proof.
  split; [reflexivity|].
  apply (ping_host_status_two_way "N/A" GaiError (fun _ => Returns PyNone)
           "no-such-host.invalid").
  reflexivity.
Defined.

(** C2, as stated, fails: an unresolvable name has no address, yet its
    status is 'offline', not BadHost. *)
Lemma unresolved_name_not_badhost :
  ping_host GaiError (fun _ => Returns PyNone) "no-such-host.invalid" =
    Done (mkRow "no-such-host.invalid" "N/A" "offline") /\
  "offline" <> "BadHost".
Proof. split; [reflexivity | discriminate]. Qed.

(* ------------------------------------------------------------------ *)
(** ** C3: a raising probe task *)

(** C3 (corrected). A task whose future raises is not classified: it
    gets no result row, only the log message
    ['<hostname> generated an exception: <error>'], and the loop goes on
    over every other future; every task that returns has its row, and
    the rows and messages are exactly those of the tasks. *)
Theorem raising_task_logged_not_classified :
  forall resolve probe hostnames order,
  Permutation order (seq 0 (length hostnames)) ->
  let '(results, errors) := collect resolve probe hostnames order [] [] in
  (forall i e, i < length hostnames -> task resolve probe hostnames i = Raised e ->
     In (exception_message (host_at hostnames i) e) errors) /\
  (forall i r, i < length hostnames -> task resolve probe hostnames i = Done r ->
     In r results) /\
  (forall r, In r results ->
     exists i, i < length hostnames /\ task resolve probe hostnames i = Done r) /\
  (forall m, In m errors ->
     exists i e, i < length hostnames /\ task resolve probe hostnames i = Raised e /\
                 m = exception_message (host_at hostnames i) e).
Proof.
  intros resolve probe hostnames order Hp.
  pose proof (in_order_iff hostnames order Hp) as Hio.
  rewrite collect_spec; simpl.
  repeat split.
  - intros i e Hi Ht. apply in_raised_msgs. exists i, e.
    repeat split; auto. now apply Hio.
  - intros i r Hi Ht. apply in_done_rows. exists i; split; auto. now apply Hio.
  - intros r Hr. apply in_done_rows in Hr as [i [Hi Ht]].
    exists i; split; auto. now apply Hio.
  - intros m Hm. apply in_raised_msgs in Hm as [i [e [Hi [Ht ->]]]].
    exists i, e; repeat split; auto. now apply Hio.
Qed.

Lemma raising_task_logged_not_classified_witness :
  Permutation [0] (seq 0 (length ["printer01"])) /\
  let '(results, errors) :=
    collect (fun _ _ => Resolved "10.0.0.7")
      (fun _ _ => ProbeRaises "[Errno 1] Operation not permitted")
      ["printer01"] [0] [] [] in
  (forall i e, i < length ["printer01"] ->
     task (fun _ _ => Resolved "10.0.0.7")
       (fun _ _ => ProbeRaises "[Errno 1] Operation not permitted") ["printer01"] i
       = Raised e ->
     In (exception_message (host_at ["printer01"] i) e) errors) /\
  (forall i r, i < length ["printer01"] ->
     task (fun _ _ => Resolved "10.0.0.7")
       (fun _ _ => ProbeRaises "[Errno 1] Operation not permitted") ["printer01"] i
       = Done r -> In r results) /\
  (forall r, In r results ->
     exists i, i < length ["printer01"] /\
       task (fun _ _ => Resolved "10.0.0.7")
         (fun _ _ => ProbeRaises "[Errno 1] Operation not permitted") ["printer01"] i
       = Done r) /\
  (forall m, In m errors ->
     exists i e, i < length ["printer01"] /\
       task (fun _ _ => Resolved "10.0.0.7")
         (fun _ _ => ProbeRaises "[Errno 1] Operation not permitted") ["printer01"] i
       = Raised e /\ m = exception_message (host_at ["printer01"] i) e).
Proof.
  split; [reflexivity|].
  apply (raising_task_logged_not_classified _ _ ["printer01"] [0]).
  reflexivity.
Defined.

(** C3, as stated, fails: the raising task gets no 'offline' row. *)
Lemma raising_task_not_offline :
  Forall (fun r => r_host r <> "printer01" \/ r_status r <> "offline")
    (fst (collect (fun _ _ => Resolved "10.0.0.7")
            (fun _ _ => ProbeRaises "[Errno 1] Operation not permitted")
            ["printer01"] [0] [] [])) /\
  fst (collect (fun _ _ => Resolved "10.0.0.7")
         (fun _ _ => ProbeRaises "[Errno 1] Operation not permitted")
         ["printer01"] [0] [] []) = [].
Proof. vm_compute. split; [constructor | reflexivity]. Qed.

(* ------------------------------------------------------------------ *)
(** ** C4: the counters of pingv9.py *)

(** C4 (code bug). One host that resolves and answers: the [finally]
    clause calls [update_progress('offline', 'Bad Host')] after the call
    in the [try] clause, so the run reports online 1, offline 0,
    bad host 1 for a total of 1 host, and completed 2. *)
Theorem v9_counters_double_count :
  let hostnames := ["good.example.com"] in
  let '(results, c, errors) :=
    collect_v9 (fun _ _ => Resolved "93.184.216.34")
      (fun _ _ => Returns (PyFloat (1 # 100))) hostnames [0] [] counters0 [] in
  results = [mkRow "good.example.com" "93.184.216.34" "online"] /\
  online_count c = 1 /\ offline_count c = 0 /\ bad_host_count c = 1 /\
  completed_count c = 2 /\
  online_count c + offline_count c + bad_host_count c <> length hostnames.
Proof. vm_compute. repeat split; discriminate. Qed.

(* ------------------------------------------------------------------ *)
(** ** C10: truthiness of the ping3 result *)

(** C10 (corrected). When the name resolves and [ping3.ping] returns [v],
    the host is 'online' iff [v] is truthy: a delay of 0.0, [False] and
    [None] give 'offline'.  The host is 'online' iff [v] is a nonzero
    delay, of either sign: a negative delay is truthy too, so 'online'
    does not require a positive latency. *)
Theorem online_iff_truthy :
  forall bad_ip ip probe hostname v,
  probe ip = Returns v ->
  exists r, ping_host_gen bad_ip (Resolved ip) probe hostname = Done r /\
    r_ip r = ip /\
    (r_status r = "online" <-> truthy v = true) /\
    (v = PyFloat 0 -> r_status r = "offline") /\
    (v = PyFalse -> r_status r = "offline") /\
    (r_status r = "online" <-> exists x, v = PyFloat x /\ ~ (x == 0)%Q).
Proof.
  intros bad_ip ip probe hostname v Hp.
  eexists; simpl; rewrite Hp; split; [reflexivity|]; simpl.
  split; [reflexivity|].
  split; [destruct (truthy v); split; congruence|].
  split; [intros ->; reflexivity|].
  split; [intros ->; reflexivity|].
  destruct v as [| |x]; simpl.
  - split; [discriminate | intros [x [Hx _]]; discriminate].
  - split; [discriminate | intros [x [Hx _]]; discriminate].
  - destruct (Qeq_bool x 0) eqn:Hx; simpl; split.
    + discriminate.
    + intros [y [Hy Hnz]]. injection Hy as <-.
      exfalso. apply Hnz. now apply Qeq_bool_iff.
    + intros _. exists x. split; [reflexivity|].
      intro Heq. apply Qeq_bool_iff in Heq. congruence.
    + intros _; reflexivity.
Qed.

Lemma online_iff_truthy_witness :
  (fun _ : string => Returns (PyFloat (3 # 1000))) "10.0.0.1" =
    Returns (PyFloat (3 # 1000)) /\
  exists r, ping_host_gen "N/A" (Resolved "10.0.0.1")
      (fun _ => Returns (PyFloat (3 # 1000))) "good.example.com" = Done r /\
    r_ip r = "10.0.0.1" /\
    (r_status r = "online" <-> truthy (PyFloat (3 # 1000)) = true) /\
    (PyFloat (3 # 1000) = PyFloat 0 -> r_status r = "offline") /\
    (PyFloat (3 # 1000) = PyFalse -> r_status r = "offline") /\
    (r_status r = "online" <-> exists x, PyFloat (3 # 1000) = PyFloat x /\ ~ (x == 0)%Q).
Proof.
  split; [reflexivity|].
  apply (online_iff_truthy "N/A" "10.0.0.1" (fun _ => Returns (PyFloat (3 # 1000)))
           "good.example.com" (PyFloat (3 # 1000))).
  reflexivity.
Defined.

(** C10, as stated, fails: [ping3.ping] measures its delay as a
    difference of [time.time()] readings, negative when the wall clock
    steps back during the echo; such a delay is truthy and the host is
    'online' with a negative latency. *)
Lemma negative_delay_online :
  ping_host_gen "N/A" (Resolved "10.0.0.1")
    (fun _ => Returns (PyFloat (-1 # 1000))) "good.example.com" =
    Done (mkRow "good.example.com" "10.0.0.1" "online") /\
  (-1 # 1000 < 0)%Q.
Proof. split; [reflexivity | reflexivity]. Qed.

(* ------------------------------------------------------------------ *)
(** ** Strings *)

Lemma str_app_assoc (a b c : string) :
  String.append (String.append a b) c = String.append a (String.append b c).
Proof. induction a as [|x a IH]; simpl; [reflexivity | now rewrite IH]. Qed.

Lemma str_app_nil_r (a : string) : String.append a EmptyString = a.
Proof. induction a as [|x a IH]; simpl; [reflexivity | now rewrite IH]. Qed.

(* ------------------------------------------------------------------ *)
(** ** C5: the loader *)

Lemma translate_newlines_nil (s : string) :
  translate_newlines s = EmptyString -> s = EmptyString.
Proof.
  destruct s as [|c s]; simpl; [auto|].
  destruct (Ascii.eqb c CR); [|discriminate].
  destruct s as [|c' s']; [discriminate|].
  destruct (Ascii.eqb c' LF); discriminate.
Qed.

Lemma split_lines_nil (s cur : string) :
  split_lines s cur = [] -> s = EmptyString /\ cur = EmptyString.
Proof.
  revert cur; induction s as [|c s IH]; intros cur H; simpl in H.
  - destruct cur; [auto | discriminate].
  - destruct (Ascii.eqb c LF); [discriminate|].
    apply IH in H as [_ Hc]. destruct cur; discriminate.
Qed.

(** C5 (corrected). The loader yields one target per line of the file,
    as Python's line iteration splits it, each stripped of surrounding
    whitespace: a blank line is not skipped but becomes the empty
    target.  Only an empty file gives no target; then the report is the
    header row alone. *)
Theorem load_hostnames_every_line : forall content,
  load_hostnames content = map strip (py_lines content) /\
  length (load_hostnames content) = length (py_lines content) /\
  (load_hostnames content = [] <-> content = EmptyString) /\
  (forall l, In l (py_lines content) -> strip l = EmptyString ->
     In EmptyString (load_hostnames content)) /\
  (forall resolve probe order,
     Permutation order (seq 0 (length (load_hostnames EmptyString))) ->
     main_ping_report resolve probe EmptyString order = [excel_header]).
Proof.
  intros content.
  split; [reflexivity|].
  split; [apply length_map|].
  split.
  { unfold load_hostnames; split.
    - intros H. apply map_eq_nil in H.
      apply split_lines_nil in H as [H _]. now apply translate_newlines_nil.
    - intros ->; reflexivity. }
  split.
  { intros l Hl Hs. unfold load_hostnames. rewrite <- Hs. now apply in_map. }
  intros resolve probe order Hp. simpl in Hp.
  apply Permutation_sym, Permutation_nil in Hp; subst order. reflexivity.
Qed.

(** C5, as stated, fails: the blank line of ["a\n\nb\n"] is a target,
    and a file holding one blank line has one target, not zero. *)
Lemma blank_lines_are_targets :
  load_hostnames (String.append "a" (String LF (String LF
                   (String.append "b" (String LF EmptyString))))) = ["a"; ""; "b"] /\
  load_hostnames (String LF EmptyString) = [""].
Proof. split; reflexivity. Qed.

(* ------------------------------------------------------------------ *)
(** ** C7: the report *)

(** C7 (corrected). In ping.py the report is the header row
    [HostName, IP, Online/Offline] followed by one three-cell row per
    collected result, in completion order; a target whose task raised
    has no row.  The same holds for the report written by [main] of
    pingV3.py and of pingv9.py once a file is chosen.  The CSV of rtsv7.py instead has the two columns
    [IP, Status], one row per input line in input order. *)
Theorem report_header_then_collected_rows :
  forall resolve probe content order,
  Permutation order (seq 0 (length (load_hostnames content))) ->
  main_ping_report resolve probe content order =
    excel_header :: map row_cells (done_rows resolve probe (load_hostnames content) order) /\
  excel_header = ["HostName"; "IP"; "Online/Offline"] /\
  Forall (fun cells => length cells = 3) (main_ping_report resolve probe content order) /\
  length (main_ping_report resolve probe content order) =
    1 + length (filter (returns resolve probe (load_hostnames content))
                  (seq 0 (length (load_hostnames content)))) /\
  (forall ips run,
     hd [] (rts_csv ips run) = ["IP"; "Status"] /\
     Forall (fun cells => length cells = 2) (rts_csv ips run) /\
     map (hd EmptyString) (tl (rts_csv ips run)) = ips) /\
  (forall listing inputs read_file stamp times elapsed date_str prior f,
     snd (select_txt_file listing inputs) = Chosen f ->
     run_report (main_v3 listing inputs read_file resolve probe order stamp
                   elapsed date_str prior) =
       Some (output_file_name date_str,
             excel_header :: map row_cells
               (done_rows resolve probe (load_hostnames (read_file f)) order)) /\
     run_report (main_v9 listing inputs read_file resolve probe order times
                   elapsed date_str prior) =
       Some (output_file_name date_str,
             excel_header :: map row_cells
               (done_rows_v9 resolve probe (load_hostnames (read_file f)) order))).
Proof.
  intros resolve probe content order Hp.
  assert (Heq : main_ping_report resolve probe content order =
    excel_header :: map row_cells (done_rows resolve probe (load_hostnames content) order)).
  { unfold main_ping_report. rewrite collect_spec. reflexivity. }
  split; [exact Heq|]. split; [reflexivity|].
  split.
  { rewrite Heq. constructor; [reflexivity|].
    apply Forall_map, Forall_forall. intros; reflexivity. }
  split.
  { rewrite Heq.
    change (1 + length (map row_cells
              (done_rows resolve probe (load_hostnames content) order)) =
            1 + length (filter (returns resolve probe (load_hostnames content))
                  (seq 0 (length (load_hostnames content))))).
    rewrite length_map, <- done_rows_length. f_equal.
    apply Permutation_length. unfold done_rows. apply Permutation_flat_map, Hp. }
  split.
  { intros ips run. unfold rts_csv. simpl.
    split; [reflexivity|]. split.
    - constructor; [reflexivity|]. apply Forall_map, Forall_forall. intros; reflexivity.
    - rewrite map_map. simpl. apply map_id. }
  intros listing inputs read_file stamp times elapsed date_str prior f Hs. split.
  - unfold main_v3. rewrite Hs, collect_spec. reflexivity.
  - pose proof (collect_v9_rows resolve probe (load_hostnames (read_file f)) order
                  [] counters0 []) as Hr.
    unfold main_v9. rewrite Hs.
    destruct (collect_v9 resolve probe (load_hostnames (read_file f)) order [] counters0 [])
      as [[res c] exc].
    cbn [fst app] in Hr. subst res. reflexivity.
Qed.

Lemma report_header_then_collected_rows_witness :
  Permutation [0] (seq 0 (length (load_hostnames "printer01"))) /\
  main_ping_report (fun _ _ => Resolved "10.0.0.7") (fun _ _ => Returns PyNone)
    "printer01" [0] =
    excel_header :: map row_cells (done_rows (fun _ _ => Resolved "10.0.0.7")
      (fun _ _ => Returns PyNone) (load_hostnames "printer01") [0]) /\
  excel_header = ["HostName"; "IP"; "Online/Offline"] /\
  Forall (fun cells => length cells = 3)
    (main_ping_report (fun _ _ => Resolved "10.0.0.7") (fun _ _ => Returns PyNone)
       "printer01" [0]) /\
  length (main_ping_report (fun _ _ => Resolved "10.0.0.7")
            (fun _ _ => Returns PyNone) "printer01" [0]) =
    1 + length (filter (returns (fun _ _ => Resolved "10.0.0.7")
                          (fun _ _ => Returns PyNone) (load_hostnames "printer01"))
                  (seq 0 (length (load_hostnames "printer01")))) /\
  (forall ips run,
     hd [] (rts_csv ips run) = ["IP"; "Status"] /\
     Forall (fun cells => length cells = 2) (rts_csv ips run) /\
     map (hd EmptyString) (tl (rts_csv ips run)) = ips) /\
  (forall listing inputs read_file stamp times elapsed date_str prior f,
     snd (select_txt_file listing inputs) = Chosen f ->
     run_report (main_v3 listing inputs read_file (fun _ _ => Resolved "10.0.0.7") (fun _ _ => Returns PyNone) [0] stamp
                   elapsed date_str prior) =
       Some (output_file_name date_str,
             excel_header :: map row_cells
               (done_rows (fun _ _ => Resolved "10.0.0.7") (fun _ _ => Returns PyNone) (load_hostnames (read_file f)) [0])) /\
     run_report (main_v9 listing inputs read_file (fun _ _ => Resolved "10.0.0.7") (fun _ _ => Returns PyNone) [0] times
                   elapsed date_str prior) =
       Some (output_file_name date_str,
             excel_header :: map row_cells
               (done_rows_v9 (fun _ _ => Resolved "10.0.0.7") (fun _ _ => Returns PyNone) (load_hostnames (read_file f)) [0]))).
Proof.
  split; [reflexivity|].
  apply (report_header_then_collected_rows _ _ "printer01" [0]).
  reflexivity.
Defined.

(** C7, as stated, fails: one target whose probe raises, and the report
    is the header row alone. *)
Lemma report_misses_raising_target :
  main_ping_report (fun _ _ => Resolved "10.0.0.7")
    (fun _ _ => ProbeRaises "[Errno 1] Operation not permitted") "printer01" [0] =
    [excel_header] /\
  load_hostnames "printer01" = ["printer01"].
Proof. split; reflexivity. Qed.

(* ------------------------------------------------------------------ *)
(** ** C8: the log of ping.py across runs *)

Lemma log_all_extends (stamp : nat -> string) : forall msgs k file,
  exists rest, log_all stamp k msgs file = String.append file rest.
Proof.
  induction msgs as [|m msgs IH]; intros k file; simpl.
  - exists EmptyString. now rewrite str_app_nil_r.
  - destruct (IH (S k) (log_append (stamp k) m file)) as [rest Hr].
    rewrite Hr. unfold log_append. rewrite str_app_assoc.
    eexists; reflexivity.
Qed.

(** C8 (corrected). ping.py truncates its log when [main] starts: the log
    after a run does not depend on what the file held before, and it
    starts with the run's own first line. *)
Theorem ping_log_truncated_each_run :
  forall resolve probe stamp elapsed content order prior,
  main_ping_log resolve probe stamp elapsed content order prior =
    main_ping_log resolve probe stamp elapsed content order EmptyString /\
  exists rest,
    main_ping_log resolve probe stamp elapsed content order prior =
    String.append
      (log_append (stamp 0)
         (String.append "Starting to ping "
            (String.append (nat_to_string (length (load_hostnames content)))
               " hostnames...")) EmptyString) rest.
Proof.
  intros resolve probe stamp elapsed content order prior.
  split; [reflexivity|].
  unfold main_ping_log, truncate. simpl.
  apply log_all_extends.
Qed.

(** C8, as stated, fails: a line logged by an earlier run is gone after
    the next run. *)
Lemma earlier_run_line_lost :
  let old_line := "2024-06-14 12:00:00 - Total hostnames/machines pinged: 3" in
  existsb (String.eqb (String.append old_line (String LF EmptyString)))
    (py_lines (main_ping_log (fun _ _ => GaiError) (fun _ _ => HostUnknown)
       (fun _ => "2024-06-15 09:30:00") "0.00" EmptyString []
       (String.append old_line (String LF EmptyString)))) = false.
Proof. vm_compute. reflexivity. Qed.

(* ------------------------------------------------------------------ *)
(** ** C6: the retention purge of pingv9.py *)

Open Scope Z_scope.

(** *** Digits and fields of the timestamp *)

Ltac digit_cases x :=
  let H := fresh "Hd" in
  assert (H : x = 0 \/ x = 1 \/ x = 2 \/ x = 3 \/ x = 4 \/ x = 5 \/ x = 6 \/
              x = 7 \/ x = 8 \/ x = 9) by lia;
  destruct H as [->|[->|[->|[->|[->|[->|[->|[->|[->| ->]]]]]]]]].

Lemma digit_facts (k : Z) : 0 <= k <= 9 ->
  is_digit (digit k) = true /\ digit_val (digit k) = k /\
  Ascii.eqb (digit k) LF = false /\ Ascii.eqb (digit k) CR = false /\
  Ascii.eqb " " (digit k) = false /\ Ascii.eqb "-" (digit k) = false /\
  py_isspace (digit k) = false.
Proof. intros Hk. digit_cases k; vm_compute; repeat split. Qed.

(** The two digits of a two-digit field. *)
Lemma pad2_split (n : Z) : 0 <= n <= 99 ->
  exists a b, 0 <= a <= 9 /\ 0 <= b <= 9 /\ n = 10 * a + b /\
    pad2 n = String (digit a) (String (digit b) EmptyString).
Proof.
  intros Hn. exists (n / 10), (n mod 10).
  pose proof (Z.div_mod n 10 ltac:(lia)).
  pose proof (Z.mod_pos_bound n 10 ltac:(lia)).
  repeat split; try lia.
Qed.

Lemma pad4_split (n : Z) : 0 <= n <= 9999 ->
  exists a b c d, 0 <= a <= 9 /\ 0 <= b <= 9 /\ 0 <= c <= 9 /\ 0 <= d <= 9 /\
    n = 1000 * a + 100 * b + 10 * c + d /\
    pad4 n = String (digit a) (String (digit b) (String (digit c)
               (String (digit d) EmptyString))).
Proof.
  intros Hn. exists (n / 1000), (n / 100 mod 10), (n / 10 mod 10), (n mod 10).
  pose proof (Z.div_mod n 10 ltac:(lia)).
  pose proof (Z.mod_pos_bound n 10 ltac:(lia)).
  pose proof (Z.div_mod (n / 10) 10 ltac:(lia)).
  pose proof (Z.mod_pos_bound (n / 10) 10 ltac:(lia)).
  pose proof (Z.div_mod (n / 100) 10 ltac:(lia)).
  pose proof (Z.mod_pos_bound (n / 100) 10 ltac:(lia)).
  pose proof (Z.div_mod (n / 1000) 10 ltac:(lia)).
  pose proof (Z.mod_pos_bound (n / 1000) 10 ltac:(lia)).
  assert (E1 : n / 10 / 10 = n / 100) by (rewrite Z.div_div by lia; reflexivity).
  assert (E2 : n / 100 / 10 = n / 1000) by (rewrite Z.div_div by lia; reflexivity).
  assert (E3 : n / 1000 / 10 = n / 10000) by (rewrite Z.div_div by lia; reflexivity).
  assert (E4 : n / 10000 = 0) by (apply Z.div_small; lia).
  rewrite E1, E2, E3, E4 in *.
  repeat split; try lia.
Qed.

(** Each field parser, on the two digits [strftime] writes, matches
    them first. *)
Ltac field_pad_tac :=
  let a := fresh "a" in let b := fresh "b" in
  intros n r Hn;
  destruct (pad2_split n ltac:(lia)) as (a & b & Ha & Hb & -> & ->);
  simpl String.append;
  digit_cases a; digit_cases b; try (exfalso; lia);
  vm_compute; eexists; reflexivity.

Lemma p_month_pad : forall n r, 1 <= n <= 12 ->
  exists xs, p_month (String.append (pad2 n) r) = (n, r) :: xs.
Proof. field_pad_tac. Qed.

Lemma p_day_pad : forall n r, 1 <= n <= 31 ->
  exists xs, p_day (String.append (pad2 n) r) = (n, r) :: xs.
Proof. field_pad_tac. Qed.

Lemma p_hour_pad : forall n r, 0 <= n <= 23 ->
  exists xs, p_hour (String.append (pad2 n) r) = (n, r) :: xs.
Proof. field_pad_tac. Qed.

Lemma p_minute_pad : forall n r, 0 <= n <= 59 ->
  exists xs, p_minute (String.append (pad2 n) r) = (n, r) :: xs.
Proof. field_pad_tac. Qed.

Lemma p_second_pad : forall n r, 0 <= n <= 59 ->
  exists xs, p_second (String.append (pad2 n) r) = (n, r) :: xs.
Proof. field_pad_tac. Qed.

Lemma p_year_pad : forall n r, 0 <= n <= 9999 ->
  p_year (String.append (pad4 n) r) = [(n, r)].
Proof.
  intros n r Hn.
  destruct (pad4_split n Hn) as (a & b & c & d & Ha & Hb & Hc & Hd & Hn' & ->).
  simpl String.append. unfold p_year.
  destruct (digit_facts a Ha) as (Da & Va & _).
  destruct (digit_facts b Hb) as (Db & Vb & _).
  destruct (digit_facts c Hc) as (Dc & Vc & _).
  destruct (digit_facts d Hd) as (Dd & Vd & _).
  rewrite Da, Db, Dc, Dd, Va, Vb, Vc, Vd. cbn [andb]. now rewrite Hn'.
Qed.

Lemma p_spaces_cons (c : ascii) (r : string) :
  p_spaces (String c r) = if py_isspace c then p_spaces r ++ [r] else [].
Proof. reflexivity. Qed.

Lemma p_spaces_pad : forall n r, 0 <= n <= 99 ->
  p_spaces (String " " (String.append (pad2 n) r)) = [String.append (pad2 n) r].
Proof.
  intros n r Hn.
  destruct (pad2_split n Hn) as (a & b & Ha & Hb & _ & ->).
  destruct (digit_facts a Ha) as (_ & _ & _ & _ & _ & _ & Sa).
  rewrite p_spaces_cons.
  replace (py_isspace " ") with true by reflexivity.
  cbn [String.append]. rewrite p_spaces_cons, Sa. reflexivity.
Qed.

Lemma p_lit_same (c : ascii) (r : string) : p_lit c (String c r) = [r].
Proof. unfold p_lit. now rewrite Ascii.eqb_refl. Qed.

Lemma days_in_month_le (y m : Z) : days_in_month y m <= 31.
Proof.
  unfold days_in_month.
  destruct (_ || _); [lia|]. destruct (m =? 2); [destruct (is_leap y)|]; lia.
Qed.

Lemma valid_dt_bounds (t : datetime) : valid_dt t = true ->
  1 <= dt_year t <= 9999 /\ 1 <= dt_month t <= 12 /\ 1 <= dt_day t <= 31 /\
  0 <= dt_hour t <= 23 /\ 0 <= dt_minute t <= 59 /\ 0 <= dt_second t <= 59 /\
  0 <= dt_microsecond t <= 999999.
Proof.
  unfold valid_dt; intros H.
  repeat rewrite andb_true_iff in H.
  repeat match goal with Hc : _ /\ _ |- _ => destruct Hc end.
  repeat match goal with Hc : (_ <=? _) = true |- _ => apply Z.leb_le in Hc end.
  pose proof (days_in_month_le (dt_year t) (dt_month t)).
  lia.
Qed.

Lemma valid_dt_drop (t : datetime) :
  valid_dt t = true -> valid_dt (drop_microseconds t) = true.
Proof.
  destruct t as [y mo d h mi sec us]. unfold valid_dt, drop_microseconds.
  cbn [dt_year dt_month dt_day dt_hour dt_minute dt_second dt_microsecond].
  intros H. repeat rewrite andb_true_iff in H |- *.
  intuition.
Qed.

Lemma to_us_drop (t : datetime) :
  to_us (drop_microseconds t) = to_us t - dt_microsecond t.
Proof. destruct t. unfold to_us, toordinal, drop_microseconds. simpl dt_year.
  cbn [dt_year dt_month dt_day dt_hour dt_minute dt_second dt_microsecond]. lia.
Qed.

(** Parsing what [strftime] wrote: the first match of the regular
    expression reads every field back and leaves nothing. *)
Lemma strptime_matches_strftime (t : datetime) : valid_dt t = true ->
  exists junk, strptime_matches (strftime_log t) = (drop_microseconds t, EmptyString) :: junk.
Proof.
  intros Hv. pose proof (valid_dt_bounds t Hv) as (By & Bmo & Bd & Bh & Bmi & Bs & _).
  destruct t as [y mo d h mi sec us]. unfold strftime_log, drop_microseconds in *.
  cbn [dt_year dt_month dt_day dt_hour dt_minute dt_second dt_microsecond] in *.
  rewrite <- (str_app_nil_r (pad2 sec)).
  cbn [String.append].
  unfold strptime_matches.
  rewrite p_year_pad by lia. cbn [flat_map fst snd]. rewrite p_lit_same. cbn [flat_map fst snd].
  match goal with |- context [p_month (String.append (pad2 ?n) ?r)] =>
    destruct (p_month_pad n r ltac:(lia)) as [x1 ->] end. cbn [flat_map fst snd].
  rewrite p_lit_same. cbn [flat_map fst snd].
  match goal with |- context [p_day (String.append (pad2 ?n) ?r)] =>
    destruct (p_day_pad n r ltac:(lia)) as [x2 ->] end. cbn [flat_map fst snd].
  rewrite p_spaces_pad by lia. cbn [flat_map fst snd].
  match goal with |- context [p_hour (String.append (pad2 ?n) ?r)] =>
    destruct (p_hour_pad n r ltac:(lia)) as [x3 ->] end. cbn [flat_map fst snd].
  rewrite p_lit_same. cbn [flat_map fst snd].
  match goal with |- context [p_minute (String.append (pad2 ?n) ?r)] =>
    destruct (p_minute_pad n r ltac:(lia)) as [x4 ->] end. cbn [flat_map fst snd].
  rewrite p_lit_same. cbn [flat_map fst snd].
  match goal with |- context [p_second (String.append (pad2 ?n) ?r)] =>
    destruct (p_second_pad n r ltac:(lia)) as [x5 ->] end. cbn [flat_map fst snd app].
  eexists. reflexivity.
Qed.

Lemma strptime_log_strftime (t : datetime) : valid_dt t = true ->
  strptime_log (strftime_log t) = Some (drop_microseconds t).
Proof.
  intros Hv. unfold strptime_log.
  destruct (strptime_matches_strftime t Hv) as [junk ->].
  cbn [String.eqb andb]. now rewrite valid_dt_drop.
Qed.

Lemma before_sep_cons (c : ascii) (s : string) : Ascii.eqb " " c = false ->
  before_sep " - " (String c s) = String c (before_sep " - " s).
Proof. intros H. cbn [before_sep prefixb]. now rewrite H. Qed.

Lemma before_sep_space (c : ascii) (s : string) : Ascii.eqb "-" c = false ->
  before_sep " - " (String " " (String c s)) =
  String " " (before_sep " - " (String c s)).
Proof. intros H. cbn [before_sep prefixb]. rewrite H. reflexivity. Qed.

Lemma before_sep_pad2 (n : Z) (r : string) : 0 <= n <= 99 ->
  before_sep " - " (String.append (pad2 n) r) =
  String.append (pad2 n) (before_sep " - " r).
Proof.
  intros Hn. destruct (pad2_split n Hn) as (a & b & Ha & Hb & _ & ->).
  destruct (digit_facts a Ha) as (_ & _ & _ & _ & Ea & _).
  destruct (digit_facts b Hb) as (_ & _ & _ & _ & Eb & _).
  cbn [String.append]. rewrite !before_sep_cons by assumption. reflexivity.
Qed.

Lemma before_sep_space_pad2 (n : Z) (r : string) : 0 <= n <= 99 ->
  before_sep " - " (String " " (String.append (pad2 n) r)) =
  String " " (String.append (pad2 n) (before_sep " - " r)).
Proof.
  intros Hn. destruct (pad2_split n Hn) as (a & b & Ha & Hb & _ & ->).
  destruct (digit_facts a Ha) as (_ & _ & _ & _ & Ea & Ma & _).
  destruct (digit_facts b Hb) as (_ & _ & _ & _ & Eb & _).
  cbn [String.append]. rewrite before_sep_space by assumption.
  rewrite !before_sep_cons by assumption. reflexivity.
Qed.

Lemma before_sep_pad4 (n : Z) (r : string) : 0 <= n <= 9999 ->
  before_sep " - " (String.append (pad4 n) r) =
  String.append (pad4 n) (before_sep " - " r).
Proof.
  intros Hn.
  destruct (pad4_split n Hn) as (a & b & c & d & Ha & Hb & Hc & Hd & _ & ->).
  destruct (digit_facts a Ha) as (_ & _ & _ & _ & Ea & _).
  destruct (digit_facts b Hb) as (_ & _ & _ & _ & Eb & _).
  destruct (digit_facts c Hc) as (_ & _ & _ & _ & Ec & _).
  destruct (digit_facts d Hd) as (_ & _ & _ & _ & Ed & _).
  cbn [String.append]. rewrite !before_sep_cons by assumption. reflexivity.
Qed.

(** [entry.split(' - ')[0]] of a line [log_message] wrote is its timestamp. *)
Lemma before_sep_log_entry (t : datetime) (m rest : string) :
  valid_dt t = true ->
  before_sep " - " (String.append (log_entry t m) rest) = strftime_log t.
Proof.
  intros Hv. pose proof (valid_dt_bounds t Hv) as (By & Bmo & Bd & Bh & Bmi & Bs & _).
  unfold log_entry, strftime_log. rewrite !str_app_assoc. cbn [String.append].
  rewrite before_sep_pad4 by lia. rewrite before_sep_cons by reflexivity.
  rewrite before_sep_pad2 by lia. rewrite before_sep_cons by reflexivity.
  rewrite before_sep_pad2 by lia. rewrite before_sep_space_pad2 by lia.
  rewrite before_sep_cons by reflexivity.
  rewrite before_sep_pad2 by lia. rewrite before_sep_cons by reflexivity.
  rewrite before_sep_pad2 by lia.
  replace (before_sep " - " (String " " (String "-" (String " " (String.append m rest)))))
    with EmptyString by reflexivity.
  now rewrite str_app_nil_r.
Qed.

(** The test of [purge_old_logs] on a line written by [log_message] at
    time [t]: the age of its timestamp, read back without microseconds. *)
Lemma keep_entry_log_line (now t : datetime) (m rest : string) :
  valid_dt t = true ->
  keep_entry now (String.append (log_entry t m) rest) =
  (to_us now - (to_us t - dt_microsecond t) <? retention_us).
Proof.
  intros Hv. unfold keep_entry.
  rewrite before_sep_log_entry, strptime_log_strftime by exact Hv.
  now rewrite to_us_drop.
Qed.

Lemma plain_pad2 (n : Z) : 0 <= n <= 99 -> str_forall plain_char (pad2 n) = true.
Proof.
  intros Hn. destruct (pad2_split n Hn) as (a & b & Ha & Hb & _ & ->).
  destruct (digit_facts a Ha) as (_ & _ & La & Ca & _).
  destruct (digit_facts b Hb) as (_ & _ & Lb & Cb & _).
  unfold plain_char. cbn [str_forall]. now rewrite La, Ca, Lb, Cb.
Qed.

Lemma plain_pad4 (n : Z) : 0 <= n <= 9999 -> str_forall plain_char (pad4 n) = true.
Proof.
  intros Hn.
  destruct (pad4_split n Hn) as (a & b & c & d & Ha & Hb & Hc & Hd & _ & ->).
  destruct (digit_facts a Ha) as (_ & _ & La & Ca & _).
  destruct (digit_facts b Hb) as (_ & _ & Lb & Cb & _).
  destruct (digit_facts c Hc) as (_ & _ & Lc & Cc & _).
  destruct (digit_facts d Hd) as (_ & _ & Ld & Cd & _).
  unfold plain_char. cbn [str_forall]. now rewrite La, Ca, Lb, Cb, Lc, Cc, Ld, Cd.
Qed.

Lemma str_forall_app (f : ascii -> bool) (a b : string) :
  str_forall f (String.append a b) = str_forall f a && str_forall f b.
Proof.
  induction a as [|c a IH]; [reflexivity|].
  cbn [String.append str_forall]. rewrite IH. apply andb_assoc.
Qed.

(** A line [log_message] writes holds no line break before its end. *)
Lemma plain_log_entry (t : datetime) (m : string) :
  valid_dt t = true -> str_forall plain_char m = true ->
  str_forall plain_char (log_entry t m) = true.
Proof.
  intros Hv Hm. pose proof (valid_dt_bounds t Hv) as (By & Bmo & Bd & Bh & Bmi & Bs & _).
  unfold log_entry, strftime_log. rewrite !str_forall_app.
  rewrite Hm, plain_pad4, !plain_pad2 by lia. reflexivity.
Qed.

Close Scope Z_scope.

(** *** Lines of the log file *)

Lemma str_forall_impl (f g : ascii -> bool) (s : string) :
  (forall c, f c = true -> g c = true) ->
  str_forall f s = true -> str_forall g s = true.
Proof.
  intros Hfg. induction s as [|c s IH]; [reflexivity|].
  cbn [str_forall]. rewrite !andb_true_iff. intros [H1 H2]. auto.
Qed.

(** Universal newlines leave no ["\r"]. *)
Lemma translate_newlines_no_cr : forall n s, String.length s <= n ->
  str_forall (fun c => negb (Ascii.eqb c CR)) (translate_newlines s) = true.
Proof.
  induction n as [|n IH]; intros s Hs.
  - destruct s; [reflexivity | simpl in Hs; lia].
  - destruct s as [|c r]; [reflexivity|]. cbn [String.length] in Hs.
    cbn [translate_newlines]. destruct (Ascii.eqb c CR) eqn:Ec.
    + destruct r as [|c' r']; [reflexivity|]. cbn [String.length] in Hs.
      destruct (Ascii.eqb c' LF); cbn [str_forall];
        replace (negb (Ascii.eqb LF CR)) with true by reflexivity;
        apply IH; cbn [String.length]; lia.
    + cbn [str_forall]. rewrite Ec. apply IH. lia.
Qed.

(** Universal newlines keep a final ["\n"]. *)
Lemma translate_newlines_lf_end : forall n s, String.length s <= n ->
  exists t, translate_newlines (String.append s (String LF EmptyString)) =
            String.append t (String LF EmptyString).
Proof.
  induction n as [|n IH]; intros s Hs.
  - destruct s; [exists EmptyString; reflexivity | simpl in Hs; lia].
  - destruct s as [|c r]; [exists EmptyString; reflexivity|].
    cbn [String.length] in Hs. cbn [String.append translate_newlines].
    destruct (Ascii.eqb c CR) eqn:Ec.
    + destruct r as [|c' r']; [exists EmptyString; reflexivity|].
      cbn [String.length] in Hs. cbn [String.append].
      destruct (Ascii.eqb c' LF).
      * destruct (IH r' ltac:(lia)) as [t Ht]. rewrite Ht.
        exists (String LF t). reflexivity.
      * destruct (IH (String c' r') ltac:(cbn [String.length]; lia)) as [t Ht].
        cbn [String.append] in Ht. rewrite Ht. exists (String LF t). reflexivity.
    + destruct (IH r ltac:(lia)) as [t Ht]. rewrite Ht.
      exists (String c t). reflexivity.
Qed.

(** Splitting a text that ends in ["\n"] and holds no ["\r"]: every
    line is a run of plain characters followed by ["\n"]. *)
Lemma split_lines_ok : forall p cur,
  str_forall plain_char cur = true ->
  str_forall (fun c => negb (Ascii.eqb c CR)) p = true ->
  Forall (fun l => exists b, l = String.append b (String LF EmptyString) /\
                             str_forall plain_char b = true)
    (split_lines (String.append p (String LF EmptyString)) cur).
Proof.
  induction p as [|c p IH]; intros cur Hc Hp.
  - cbn [String.append split_lines].
    replace (Ascii.eqb LF LF) with true by reflexivity.
    constructor; [exists cur; auto | constructor].
  - cbn [String.append split_lines str_forall] in *.
    apply andb_true_iff in Hp as [Hc1 Hp].
    destruct (Ascii.eqb c LF) eqn:El.
    + constructor; [exists cur; auto|]. apply IH; [reflexivity | exact Hp].
    + apply IH; [|exact Hp].
      rewrite str_forall_app, Hc. cbn [str_forall]. unfold plain_char.
      now rewrite El, Hc1.
Qed.

Lemma split_lines_line : forall b rest cur,
  str_forall plain_char b = true ->
  split_lines (String.append b (String LF rest)) cur =
  String.append cur (String.append b (String LF EmptyString))
    :: split_lines rest EmptyString.
Proof.
  induction b as [|c b IH]; intros rest cur Hb.
  - cbn [String.append split_lines].
    replace (Ascii.eqb LF LF) with true by reflexivity. reflexivity.
  - cbn [str_forall] in Hb. apply andb_true_iff in Hb as [Hc Hb].
    unfold plain_char in Hc. apply andb_true_iff in Hc as [Hl _].
    apply negb_true_iff in Hl.
    cbn [String.append split_lines]. rewrite Hl, IH by exact Hb.
    rewrite str_app_assoc. reflexivity.
Qed.

Lemma concat_cons (x : string) (xs : list string) :
  String.concat EmptyString (x :: xs) =
  String.append x (String.concat EmptyString xs).
Proof. destruct xs; simpl; [now rewrite str_app_nil_r | reflexivity]. Qed.

(** Reading back lines that each end in ["\n"] gives the same lines. *)
Lemma py_lines_concat : forall ls,
  Forall (fun l => exists b, l = String.append b (String LF EmptyString) /\
                             str_forall plain_char b = true) ls ->
  py_lines (String.concat EmptyString ls) = ls.
Proof.
  intros ls Hls. unfold py_lines.
  assert (Hcr : forall s, str_forall (fun c => negb (Ascii.eqb c CR)) s = true ->
                          translate_newlines s = s).
  { induction s as [|c s IH]; [reflexivity|].
    cbn [str_forall translate_newlines]. rewrite andb_true_iff.
    intros [Hc Hs]. apply negb_true_iff in Hc. rewrite Hc, IH by exact Hs.
    reflexivity. }
  rewrite Hcr.
  - induction Hls as [|l ls [b [-> Hb]] _ IH]; [reflexivity|].
    rewrite concat_cons, str_app_assoc. cbn [String.append].
    rewrite split_lines_line by exact Hb. rewrite IH. reflexivity.
  - induction Hls as [|l ls [b [-> Hb]] _ IH]; [reflexivity|].
    rewrite concat_cons, !str_forall_app, IH, andb_true_r.
    rewrite (str_forall_impl plain_char) by
      (try exact Hb; unfold plain_char; intros c Hc;
       now apply andb_true_iff in Hc as [_ Hc]).
    reflexivity.
Qed.

Lemma py_lines_lf_end (s : string) :
  Forall (fun l => exists b, l = String.append b (String LF EmptyString) /\
                             str_forall plain_char b = true)
    (py_lines (String.append s (String LF EmptyString))).
Proof.
  unfold py_lines.
  pose proof (translate_newlines_no_cr _ _
    (le_n (String.length (String.append s (String LF EmptyString))))) as Hn.
  destruct (translate_newlines_lf_end _ s (le_n _)) as [t Ht].
  rewrite Ht in *. rewrite str_forall_app in Hn.
  apply andb_true_iff in Hn as [Hn _].
  now apply split_lines_ok.
Qed.

(** What [log_message] leaves in the file: the lines of the file with
    the new entry appended, filtered by the test of [purge_old_logs]. *)
Lemma py_lines_log_message (now_w now_p : datetime) (message file : string) :
  py_lines (log_message_v9 now_w now_p message file) =
  filter (keep_entry now_p) (py_lines (String.append file (log_line now_w message))).
Proof.
  unfold log_message_v9, purge_old_logs. apply py_lines_concat.
  unfold log_line. rewrite <- str_app_assoc.
  pose proof (py_lines_lf_end (String.append file (log_entry now_w message))) as H.
  rewrite Forall_forall in *. intros x Hx. apply filter_In in Hx. now apply H.
Qed.

Open Scope Z_scope.

(** C6 (confirmed). On each append, [log_message] of pingv9.py rewrites
    the log file with exactly those of its lines, the new one included,
    that pass the test of [purge_old_logs]. A line passes iff the text
    before its first [" - "] parses as a timestamp ['%Y-%m-%d %H:%M:%S']
    that is less than 7 days before the current time; a line whose
    prefix does not parse is dropped. For lines written at 10, 8 and 1
    days before an append, done within a day of the append's own
    timestamp, the file afterwards holds the 1-day-old line and the new
    line, in that order. *)
Theorem purge_keeps_last_seven_days :
  (forall now_w now_p message file,
     py_lines (log_message_v9 now_w now_p message file) =
     filter (keep_entry now_p)
       (py_lines (String.append file (log_line now_w message)))) /\
  (forall now entry,
     keep_entry now entry = true <->
     exists t, strptime_log (before_sep " - " entry) = Some t /\
               to_us now - to_us t < retention_us) /\
  (forall now_w now_p message t1 m1 t2 m2 t3 m3,
     valid_dt now_w = true ->
     valid_dt t1 = true -> valid_dt t2 = true -> valid_dt t3 = true ->
     dt_microsecond t1 = 0 -> dt_microsecond t2 = 0 -> dt_microsecond t3 = 0 ->
     to_us t1 = to_us now_w - dt_microsecond now_w - 10 * day_us ->
     to_us t2 = to_us now_w - dt_microsecond now_w - 8 * day_us ->
     to_us t3 = to_us now_w - dt_microsecond now_w - 1 * day_us ->
     to_us now_w <= to_us now_p < to_us now_w + day_us ->
     str_forall plain_char m1 = true -> str_forall plain_char m2 = true ->
     str_forall plain_char m3 = true -> str_forall plain_char message = true ->
     py_lines (log_message_v9 now_w now_p message
       (String.append (log_line t1 m1)
          (String.append (log_line t2 m2) (log_line t3 m3)))) =
     [log_line t3 m3; log_line now_w message]).
Proof.
  split; [exact py_lines_log_message|]. split.
  - intros now entry. unfold keep_entry.
    destruct (strptime_log (before_sep " - " entry)) as [t|].
    + rewrite Z.ltb_lt. split; [intros H; now exists t|].
      intros [t' [Ht' H]]. injection Ht' as <-. exact H.
    + split; [discriminate | intros [t' [Ht' _]]; discriminate].
  - intros now_w now_p message t1 m1 t2 m2 t3 m3 Hw H1 H2 H3 U1 U2 U3
      E1 E2 E3 Hp P1 P2 P3 Pm.
    pose proof (valid_dt_bounds now_w Hw) as (_ & _ & _ & _ & _ & _ & Bus).
    rewrite py_lines_log_message.
    replace (String.append (String.append (log_line t1 m1)
               (String.append (log_line t2 m2) (log_line t3 m3)))
               (log_line now_w message))
      with (String.concat EmptyString
              [log_line t1 m1; log_line t2 m2; log_line t3 m3;
               log_line now_w message])
      by (cbn [String.concat String.append]; now rewrite !str_app_assoc).
    rewrite py_lines_concat.
    + unfold log_line. cbn [filter].
      rewrite !keep_entry_log_line by assumption.
      unfold day_us, retention_us, LOG_RETENTION_DAYS in *.
      replace (to_us now_p - (to_us t1 - dt_microsecond t1) <? 7 * 86400 * 1000000)
        with false by (symmetry; apply Z.ltb_ge; lia).
      replace (to_us now_p - (to_us t2 - dt_microsecond t2) <? 7 * 86400 * 1000000)
        with false by (symmetry; apply Z.ltb_ge; lia).
      replace (to_us now_p - (to_us t3 - dt_microsecond t3) <? 7 * 86400 * 1000000)
        with true by (symmetry; apply Z.ltb_lt; lia).
      replace (to_us now_p - (to_us now_w - dt_microsecond now_w) <? 7 * 86400 * 1000000)
        with true by (symmetry; apply Z.ltb_lt; lia).
      reflexivity.
    + repeat constructor; eexists; split; try reflexivity;
        apply plain_log_entry; assumption.
Qed.

(** The example of C6 on concrete times: an append at
    2024-06-15 12:00:00.250000, purged 0.1 s later, over lines written on
    June 5, 7 and 14 at noon. *)
Lemma purge_keeps_last_seven_days_witness :
  let now_w := mkDT 2024 6 15 12 0 0 250000 in
  let now_p := mkDT 2024 6 15 12 0 0 350000 in
  let t1 := mkDT 2024 6 5 12 0 0 0 in
  let t2 := mkDT 2024 6 7 12 0 0 0 in
  let t3 := mkDT 2024 6 14 12 0 0 0 in
  py_lines (log_message_v9 now_w now_p "Finished pinging."
    (String.append (log_line t1 "Starting to ping 3 hostnames...")
       (String.append (log_line t2 "printer01 generated an exception: timeout")
          (log_line t3 "Total hostnames/machines pinged: 3")))) =
  [log_line t3 "Total hostnames/machines pinged: 3";
   log_line now_w "Finished pinging."].
Proof.
  intros now_w now_p t1 t2 t3.
  apply (proj2 (proj2 purge_keeps_last_seven_days));
    first [ vm_compute; reflexivity
          | split; [apply Z.leb_le | apply Z.ltb_lt]; vm_compute; reflexivity ].
Defined.

Close Scope Z_scope.

(* ------------------------------------------------------------------ *)
(** ** Further properties: the file menu, the purge, the counters, the
    loader and the log of a whole run *)

Open Scope string_scope.

Lemma scan_uint : forall d acc cnt,
  scan_digits (list_ascii_of_string (NilEmpty.string_of_uint d)) (Z.of_nat acc) cnt false =
  Some (Z.of_nat (Nat.of_uint_acc d acc),
        (cnt + String.length (NilEmpty.string_of_uint d))%nat).
Proof.
  induction d as [|d IH|d IH|d IH|d IH|d IH|d IH|d IH|d IH|d IH|d IH];
    intros acc cnt;
    cbn [NilEmpty.string_of_uint list_ascii_of_string String.length scan_digits
         Nat.of_uint_acc];
    [ now rewrite Nat.add_0_r | .. ];
  match goal with |- context [is_digit ?c] =>
    replace (is_digit c) with true by reflexivity;
    let v := eval vm_compute in (digit_val c) in
    replace (digit_val c) with v by reflexivity
  end;
  match goal with |- scan_digits _ ?z _ _ = Some (Z.of_nat (Nat.of_uint_acc _ ?m), _) =>
    replace z with (Z.of_nat m) by (rewrite Nat.tail_mul_spec; lia)
  end;
  rewrite IH; do 2 f_equal; lia.
Qed.

Lemma digit_not_int_space (c : ascii) : is_digit c = true -> int_space c = false.
Proof.
  unfold is_digit, int_space. rewrite andb_true_iff, !Nat.leb_le.
  intros Hn. cbv zeta.
  assert (nat_of_ascii c = 48 \/ nat_of_ascii c = 49 \/ nat_of_ascii c = 50 \/
          nat_of_ascii c = 51 \/ nat_of_ascii c = 52 \/ nat_of_ascii c = 53 \/
          nat_of_ascii c = 54 \/ nat_of_ascii c = 55 \/ nat_of_ascii c = 56 \/
          nat_of_ascii c = 57)%nat as Hc by lia.
  destruct Hc as [E|[E|[E|[E|[E|[E|[E|[E|[E|E]]]]]]]]]; rewrite E; reflexivity.
Qed.

Lemma uint_digits (d : Decimal.uint) :
  Forall (fun c => is_digit c = true) (list_ascii_of_string (NilEmpty.string_of_uint d)).
Proof. induction d; cbn; constructor; auto. Qed.

Lemma drop_int_space_id (l : list ascii) :
  Forall (fun c => int_space c = false) l -> drop_int_space l = l.
Proof. destruct l as [|c l]; [reflexivity|]. intros H. inversion H; subst. cbn. now rewrite H2. Qed.

Lemma int_strip_id (s : string) :
  Forall (fun c => int_space c = false) (list_ascii_of_string s) ->
  int_strip s = list_ascii_of_string s.
Proof.
  intros H. unfold int_strip. rewrite (drop_int_space_id _ H).
  rewrite (drop_int_space_id _ (Forall_rev H)).
  apply rev_involutive.
Qed.

Lemma py_int_nat_to_string (n : nat) :
  (String.length (nat_to_string n) <= 4300)%nat ->
  py_int (nat_to_string n) = Some (Z.of_nat n).
Proof.
  intros Hlen. unfold py_int.
  rewrite int_strip_id by (eapply Forall_impl; [intros c; apply digit_not_int_space | apply uint_digits]).
  unfold nat_to_string in *.
  pose proof (DecimalNat.Unsigned.of_to n) as Hn.
  destruct (Nat.to_uint n) as [|d|d|d|d|d|d|d|d|d|d] eqn:E.
  1: { exfalso. cbn in Hn. subst n. discriminate E. }
  all: cbn [Nat.of_uint Nat.of_uint_acc] in Hn; rewrite Nat.tail_mul_spec in Hn;
    cbn [NilEmpty.string_of_uint list_ascii_of_string] in *;
    cbn [String.length] in Hlen;
    repeat match goal with |- context [Ascii.eqb ?a ?b] =>
      let v := eval vm_compute in (Ascii.eqb a b) in replace (Ascii.eqb a b) with v by reflexivity end;
    cbv beta iota;
    match goal with |- context [is_digit ?c] =>
      replace (is_digit c) with true by reflexivity end;
    match goal with H : Nat.of_uint_acc _ ?m = _ |- context [digit_val ?c] =>
      replace (digit_val c) with (Z.of_nat m) by reflexivity end;
    rewrite scan_uint, Hn;
    replace (Nat.leb _ 4300) with true by (symmetry; apply Nat.leb_le; lia);
    reflexivity.
Qed.

Lemma choose_loop_chosen (t inputs out : list string) (f : string) :
  choose_loop t inputs = (out, Chosen f) -> In f t.
Proof.
  revert out. induction inputs as [|s rest IH]; intros out H; cbn in H.
  - discriminate.
  - destruct (py_int s) as [k|].
    + destruct ((1 <=? k)%Z && (k <=? Z.of_nat (length t))%Z) eqn:B.
      * injection H as _ <-. apply andb_true_iff in B as [B1 B2].
        apply Z.leb_le in B1, B2. apply nth_In. lia.
      * destruct (choose_loop t rest) as [o r] eqn:Ec. injection H as _ ->.
        now apply (IH o).
    + destruct (choose_loop t rest) as [o r] eqn:Ec. injection H as _ ->.
      now apply (IH o).
Qed.

Lemma choose_loop_not_none (t inputs : list string) :
  snd (choose_loop t inputs) <> NoTxtFile.
Proof.
  induction inputs as [|s rest IH]; cbn; [discriminate|].
  destruct (py_int s) as [k|];
    [destruct (_ && _); [discriminate|] |];
    destruct (choose_loop t rest); exact IH.
Qed.

Lemma choose_loop_first_accepted (t bad rest : list string) (good : string) (k : Z) :
  Forall (fun s => forall j, py_int s = Some j ->
                             (j < 1 \/ Z.of_nat (length t) < j)%Z) bad ->
  py_int good = Some k -> (1 <= k <= Z.of_nat (length t))%Z ->
  choose_loop t (bad ++ good :: rest) =
    ((flat_map (fun s => [choice_prompt;
          match py_int s with
          | Some _ => String.append "Invalid choice. Please enter a number from the list."
                        (String LF EmptyString)
          | None => String.append "Invalid input. Please enter a number."
                      (String LF EmptyString)
          end]) bad ++ [choice_prompt])%list,
     Chosen (nth (Z.to_nat (k - 1)) t EmptyString)).
Proof.
  intros Hbad Hg Hk. induction Hbad as [|s bad Hs _ IH].
  - cbn. rewrite Hg.
    replace ((1 <=? k)%Z && (k <=? Z.of_nat (length t))%Z) with true
      by (symmetry; apply andb_true_iff; split; apply Z.leb_le; lia).
    reflexivity.
  - cbn [app choose_loop flat_map]. rewrite IH.
    destruct (py_int s) as [j|] eqn:Es.
    + specialize (Hs j eq_refl).
      replace ((1 <=? j)%Z && (j <=? Z.of_nat (length t))%Z) with false
        by (symmetry; apply andb_false_iff;
            destruct Hs; [left | right]; apply Z.leb_gt; lia).
      reflexivity.
    + reflexivity.
Qed.

Lemma choose_loop_eof (t inputs : list string) :
  Forall (fun s => forall j, py_int s = Some j ->
                             (j < 1 \/ Z.of_nat (length t) < j)%Z) inputs ->
  snd (choose_loop t inputs) = InputEOF.
Proof.
  induction 1 as [|s rest Hs _ IH]; [reflexivity|]. cbn.
  destruct (py_int s) as [j|] eqn:Es.
  - specialize (Hs j eq_refl).
    replace ((1 <=? j)%Z && (j <=? Z.of_nat (length t))%Z) with false
      by (symmetry; apply andb_false_iff;
          destruct Hs; [left | right]; apply Z.leb_gt; lia).
    destruct (choose_loop t rest); exact IH.
  - destruct (choose_loop t rest); exact IH.
Qed.

Lemma menu_lines_length (i : nat) (fs : list string) :
  length (menu_lines i fs) = length fs.
Proof. revert i; induction fs; intros i; cbn; auto. Qed.

Lemma menu_lines_nth (fs : list string) : forall i k, (k < length fs)%nat ->
  nth k (menu_lines i fs) EmptyString =
  (nat_to_string (i + k) ++ ". " ++ nth k fs EmptyString ++ String LF EmptyString).
Proof.
  induction fs as [|f fs IH]; intros i k Hk; cbn in Hk; [lia|].
  destruct k as [|k]; cbn [menu_lines nth].
  - now rewrite Nat.add_0_r.
  - rewrite IH by lia. now rewrite Nat.add_succ_r.
Qed.

(** X1. [select_txt_file] prints only its message that no .txt file was
    found and returns [None], reading no input, exactly when no name of
    the directory listing ends in .txt. *)
Theorem select_txt_file_none_iff (listing inputs : list string) :
  (forall f, In f listing -> endswith ".txt" f = false) <->
  select_txt_file listing inputs =
  (["No .txt files found in the current directory." ++ String LF EmptyString],
   NoTxtFile).
Proof.
  unfold select_txt_file; cbv zeta. split.
  - intros H. destruct (filter (endswith ".txt") listing) as [|f fs] eqn:E;
      [reflexivity|].
    exfalso. assert (Hf : In f (filter (endswith ".txt") listing))
      by (rewrite E; now left).
    apply filter_In in Hf as [Hf Ht]. rewrite H in Ht by exact Hf. discriminate.
  - destruct (filter (endswith ".txt") listing) as [|f fs] eqn:E.
    + intros _ g Hg. destruct (endswith ".txt" g) eqn:Eg; [|reflexivity].
      exfalso. assert (Hin : In g (filter (endswith ".txt") listing))
        by (apply filter_In; auto).
      rewrite E in Hin. destruct Hin.
    + destruct (choose_loop (f :: fs) inputs) as [o r] eqn:Ec. intros H.
      injection H as _ Hr. subst r.
      exfalso. apply (choose_loop_not_none (f :: fs) inputs). now rewrite Ec.
Qed.

(** X2. A file [select_txt_file] returns is a name of the directory
    listing that ends in .txt. *)
Theorem select_txt_file_chosen_is_txt (listing inputs : list string) (f : string) :
  snd (select_txt_file listing inputs) = Chosen f ->
  In f listing /\ endswith ".txt" f = true.
Proof.
  unfold select_txt_file; cbv zeta.
  destruct (filter (endswith ".txt") listing) as [|g gs] eqn:E; [discriminate|].
  destruct (choose_loop (g :: gs) inputs) as [o r] eqn:Ec. cbn. intros ->.
  apply choose_loop_chosen in Ec. rewrite <- E in Ec. now apply filter_In in Ec.
Qed.

Lemma select_txt_file_chosen_is_txt_witness :
  snd (select_txt_file ["hosts.txt"; "notes.md"] ["1"]) = Chosen "hosts.txt" /\
  In "hosts.txt" ["hosts.txt"; "notes.md"] /\ endswith ".txt" "hosts.txt" = true.
Proof.
  assert (H : snd (select_txt_file ["hosts.txt"; "notes.md"] ["1"]) = Chosen "hosts.txt")
    by reflexivity.
  split; [exact H | exact (select_txt_file_chosen_is_txt _ _ _ H)].
Defined.

(** X3. [select_txt_file] returns the file of the first answer that
    [int()] reads as a number from 1 to the number of .txt files.  Each
    earlier answer writes the prompt and then one error line: the
    out-of-range one for a number, the invalid-input one when [int()]
    raises [ValueError].  The answers after the accepted one are not
    read. *)
Theorem select_txt_file_first_accepted (listing bad rest : list string)
    (good : string) (k : Z) :
  filter (endswith ".txt") listing <> [] ->
  Forall (fun s => forall j, py_int s = Some j ->
    (j < 1 \/ Z.of_nat (length (filter (endswith ".txt") listing)) < j)%Z) bad ->
  py_int good = Some k ->
  (1 <= k <= Z.of_nat (length (filter (endswith ".txt") listing)))%Z ->
  select_txt_file listing (bad ++ good :: rest) =
    (("Select a .txt file from the following list:" ++ String LF EmptyString)
       :: (menu_lines 1 (filter (endswith ".txt") listing) ++
           flat_map (fun s => [choice_prompt;
          match py_int s with
          | Some _ => String.append "Invalid choice. Please enter a number from the list."
                        (String LF EmptyString)
          | None => String.append "Invalid input. Please enter a number."
                      (String LF EmptyString)
          end]) bad ++
           [choice_prompt])%list,
     Chosen (nth (Z.to_nat (k - 1)) (filter (endswith ".txt") listing) EmptyString)).
Proof.
  intros Hne Hbad Hg Hk.
  pose proof (choose_loop_first_accepted _ bad rest good k Hbad Hg Hk) as He.
  unfold select_txt_file; cbv zeta.
  destruct (filter (endswith ".txt") listing) as [|f fs]; [contradiction|].
  now rewrite He.
Qed.

Theorem select_txt_file_eof (listing inputs : list string) :
  filter (endswith ".txt") listing <> [] ->
  Forall (fun s => forall j, py_int s = Some j ->
    (j < 1 \/ Z.of_nat (length (filter (endswith ".txt") listing)) < j)%Z) inputs ->
  snd (select_txt_file listing inputs) = InputEOF.
Proof.
  intros Hne Hin. unfold select_txt_file; cbv zeta.
  pose proof (choose_loop_eof _ inputs Hin) as He.
  destruct (filter (endswith ".txt") listing) as [|f fs]; [contradiction|].
  destruct (choose_loop (f :: fs) inputs); exact He.
Qed.

(** X5. The menu line of the (k+1)-th .txt file shows the number k+1,
    and answering that number selects that file. *)
Theorem select_txt_file_menu_number (listing rest : list string) (k : nat) :
  (k < length (filter (endswith ".txt") listing))%nat ->
  (String.length (nat_to_string (S k)) <= 4300)%nat ->
  nth (S k) (fst (select_txt_file listing (nat_to_string (S k) :: rest))) EmptyString =
  (nat_to_string (S k) ++ ". " ++ nth k (filter (endswith ".txt") listing) EmptyString
   ++ String LF EmptyString) /\
  snd (select_txt_file listing (nat_to_string (S k) :: rest)) =
  Chosen (nth k (filter (endswith ".txt") listing) EmptyString).
Proof.
  intros Hk Hlen. unfold select_txt_file; cbv zeta.
  destruct (filter (endswith ".txt") listing) as [|f fs]; [cbn in Hk; lia|].
  cbn [choose_loop]. rewrite py_int_nat_to_string by exact Hlen.
  replace ((1 <=? Z.of_nat (S k))%Z && (Z.of_nat (S k) <=? Z.of_nat (length (f :: fs)))%Z)
    with true by (symmetry; apply andb_true_iff; split; apply Z.leb_le; lia).
  replace (Z.to_nat (Z.of_nat (S k) - 1)) with k by lia.
  cbn [fst snd nth]. split; [|reflexivity].
  rewrite app_nth1 by (rewrite menu_lines_length; exact Hk).
  now rewrite menu_lines_nth.
Qed.

Lemma translate_newlines_id (s : string) :
  str_forall (fun c => negb (Ascii.eqb c CR)) s = true -> translate_newlines s = s.
Proof.
  induction s as [|c s IH]; [reflexivity|].
  cbn [str_forall translate_newlines]. rewrite andb_true_iff.
  intros [Hc Hs]. apply negb_true_iff in Hc. rewrite Hc, IH by exact Hs.
  reflexivity.
Qed.

Lemma plain_no_cr (s : string) :
  str_forall plain_char s = true ->
  str_forall (fun c => negb (Ascii.eqb c CR)) s = true.
Proof.
  apply str_forall_impl. unfold plain_char. intros c Hc.
  now apply andb_true_iff in Hc as [_ Hc].
Qed.

Lemma split_lines_wf : forall s cur,
  str_forall plain_char cur = true ->
  str_forall (fun c => negb (Ascii.eqb c CR)) s = true ->
  wf_lines (split_lines s cur).
Proof.
  induction s as [|c s IH]; intros cur Hc Hs.
  - destruct cur as [|c cur]; cbn; [constructor | constructor; [exact Hc | discriminate]].
  - cbn [str_forall split_lines] in Hs |- *.
    apply andb_true_iff in Hs as [H1 Hs]. destruct (Ascii.eqb c LF) eqn:E.
    + constructor; [exact Hc | apply IH; [reflexivity | exact Hs]].
    + apply IH; [|exact Hs]. rewrite str_forall_app, Hc. cbn [str_forall].
      unfold plain_char. now rewrite E, H1.
Qed.

Lemma py_lines_wf (content : string) : wf_lines (py_lines content).
Proof.
  apply split_lines_wf; [reflexivity|].
  apply (translate_newlines_no_cr (String.length content)). lia.
Qed.

Lemma filter_wf (f : string -> bool) (ls : list string) :
  wf_lines ls -> wf_lines (filter f ls).
Proof.
  induction 1 as [|b Hb Hne|b ls Hb _ IH]; cbn [filter]; [constructor| |].
  - destruct (f b); [now constructor | constructor].
  - destruct (f _); [now constructor | exact IH].
Qed.

Lemma split_lines_plain : forall b cur, str_forall plain_char b = true ->
  split_lines b cur =
  match String.append cur b with EmptyString => [] | s => [s] end.
Proof.
  induction b as [|c b IH]; intros cur Hb.
  - cbn [split_lines]. rewrite str_app_nil_r. now destruct cur.
  - cbn [str_forall] in Hb. apply andb_true_iff in Hb as [Hc Hb].
    unfold plain_char in Hc. apply andb_true_iff in Hc as [Hl _].
    apply negb_true_iff in Hl.
    cbn [split_lines]. rewrite Hl, IH by exact Hb. now rewrite str_app_assoc.
Qed.

Lemma wf_lines_no_cr (ls : list string) : wf_lines ls ->
  str_forall (fun c => negb (Ascii.eqb c CR)) (String.concat EmptyString ls) = true.
Proof.
  induction 1 as [|b Hb Hne|b ls Hb _ IH]; [reflexivity| |].
  - cbn. now apply plain_no_cr.
  - rewrite concat_cons, !str_forall_app, IH, plain_no_cr by exact Hb.
    reflexivity.
Qed.

Lemma wf_lines_split_concat (ls : list string) : wf_lines ls ->
  split_lines (String.concat EmptyString ls) EmptyString = ls.
Proof.
  induction 1 as [|b Hb Hne|b ls Hb _ IH]; [reflexivity| |].
  - cbn [String.concat]. rewrite split_lines_plain by exact Hb.
    destruct b; [contradiction | reflexivity].
  - rewrite concat_cons, str_app_assoc. cbn [String.append].
    rewrite split_lines_line by exact Hb. now rewrite IH.
Qed.

(** Reading back what [purge_old_logs] wrote. *)
Lemma py_lines_purge (current_time : datetime) (content : string) :
  py_lines (purge_old_logs current_time content) =
  filter (keep_entry current_time) (py_lines content).
Proof.
  unfold purge_old_logs, py_lines at 1.
  pose proof (filter_wf (keep_entry current_time) _ (py_lines_wf content)) as Hw.
  rewrite translate_newlines_id by (now apply wf_lines_no_cr).
  now apply wf_lines_split_concat.
Qed.

Lemma keep_entry_earlier (t1 t2 : datetime) (entry : string) :
  (to_us t1 <= to_us t2)%Z ->
  keep_entry t2 entry = true -> keep_entry t1 entry = true.
Proof.
  unfold keep_entry. destruct (strptime_log (before_sep " - " entry)); [|auto].
  rewrite !Z.ltb_lt. lia.
Qed.

Lemma filter_sub {A} (f g : A -> bool) (l : list A) :
  (forall x, f x = true -> g x = true) -> filter f (filter g l) = filter f l.
Proof.
  intros H. induction l as [|x l IH]; [reflexivity|]. cbn [filter].
  destruct (g x) eqn:Eg; cbn [filter]; rewrite IH; [reflexivity|].
  destruct (f x) eqn:Ef; [|reflexivity]. rewrite (H x Ef) in Eg. discriminate.
Qed.

(** X7. Reading back the file [purge_old_logs] wrote gives exactly the
    lines of the old file that pass its test, in their order. *)
Theorem py_lines_purge_old_logs (current_time : datetime) (content : string) :
  py_lines (purge_old_logs current_time content) =
  filter (keep_entry current_time) (py_lines content).
Proof. apply py_lines_purge. Qed.

(** X8. A second purge at the same time changes nothing. *)
Theorem purge_old_logs_idempotent (current_time : datetime) (content : string) :
  purge_old_logs current_time (purge_old_logs current_time content) =
  purge_old_logs current_time content.
Proof.
  unfold purge_old_logs at 1. rewrite py_lines_purge, filter_sub by auto.
  reflexivity.
Qed.

(** X9. A purge at a time [t1] followed by one at a later time [t2] gives
    the same file as the purge at [t2] alone. *)
Theorem purge_old_logs_later (t1 t2 : datetime) (content : string) :
  (to_us t1 <= to_us t2)%Z ->
  purge_old_logs t2 (purge_old_logs t1 content) = purge_old_logs t2 content.
Proof.
  intros Ht. unfold purge_old_logs at 1. rewrite py_lines_purge, filter_sub.
  - reflexivity.
  - intros x. now apply keep_entry_earlier.
Qed.

Section CountersFacts.
Variable resolve : nat -> string -> resolve_outcome.
Variable probe : nat -> string -> probe_outcome.
Variable hostnames : list string.

Lemma collect_v9_counts_gen : forall order acc c log,
  exists rows,
  fst (fst (collect_v9 resolve probe hostnames order acc c log)) = (acc ++ rows)%list /\
  completed_count (snd (fst (collect_v9 resolve probe hostnames order acc c log))) =
    completed_count c + length order + length rows /\
  online_count (snd (fst (collect_v9 resolve probe hostnames order acc c log))) =
    online_count c + length (filter (fun r => String.eqb (r_status r) "online") rows) /\
  offline_count (snd (fst (collect_v9 resolve probe hostnames order acc c log))) =
    offline_count c + length (filter (fun r => negb (String.eqb (r_status r) "online")
                                  && negb (String.eqb (r_ip r) "Bad Host")) rows) /\
  bad_host_count (snd (fst (collect_v9 resolve probe hostnames order acc c log))) =
    bad_host_count c + length order +
    length (filter (fun r => negb (String.eqb (r_status r) "online")
                             && String.eqb (r_ip r) "Bad Host") rows).
Proof.
  induction order as [|i order IH]; intros acc c log.
  - exists []. cbn. rewrite app_nil_r. repeat split; lia.
  - cbn [collect_v9]. destruct (task_v9 resolve probe hostnames i) as [r|e].
    + destruct (IH (acc ++ [r])%list
                  (update_progress "offline" "Bad Host"
                     (update_progress (r_status r) (r_ip r) c)) log)
        as [rows [Hr [Hc [Ho [Hf Hb]]]]].
      exists (r :: rows). rewrite Hr, <- app_assoc. split; [reflexivity|].
      rewrite Hc, Ho, Hf, Hb. destruct c as [cc on off bad].
      unfold update_progress. cbn [filter length].
      destruct (String.eqb (r_status r) "online") eqn:Es;
        [|destruct (String.eqb (r_ip r) "Bad Host") eqn:Ei]; cbn; lia.
    + destruct (IH acc (update_progress "offline" "Bad Host" c)
                  (log ++ [exception_message (host_at hostnames i) e])%list)
        as [rows [Hr [Hc [Ho [Hf Hb]]]]].
      exists rows. rewrite Hr. split; [reflexivity|].
      rewrite Hc, Ho, Hf, Hb. destruct c as [cc on off bad]. cbn. lia.
Qed.

End CountersFacts.

(** X10. The counters of pingv9.py after the loop: [completed] counts one
    per task plus one per result, [online] the online results, [offline]
    the other results whose IP is not Bad Host, and [bad_host] one per
    task plus the offline results whose IP is Bad Host. *)
Theorem collect_v9_counters (resolve : nat -> string -> resolve_outcome)
    (probe : nat -> string -> probe_outcome) (hostnames : list string)
    (order : list nat) :
  let res := collect_v9 resolve probe hostnames order [] counters0 [] in
  let rows := fst (fst res) in
  let c := snd (fst res) in
  completed_count c = length order + length rows /\
  online_count c = length (filter (fun r => String.eqb (r_status r) "online") rows) /\
  offline_count c =
    length (filter (fun r => negb (String.eqb (r_status r) "online")
                             && negb (String.eqb (r_ip r) "Bad Host")) rows) /\
  bad_host_count c = length order +
    length (filter (fun r => negb (String.eqb (r_status r) "online")
                             && String.eqb (r_ip r) "Bad Host") rows).
Proof.
  cbv zeta.
  destruct (collect_v9_counts_gen resolve probe hostnames order [] counters0 [])
    as [rows [Hr [Hc [Ho [Hf Hb]]]]].
  rewrite Hr. cbn [app]. rewrite Hc, Ho, Hf, Hb. cbn. lia.
Qed.

Lemma str_forall_list (f : ascii -> bool) (s : string) :
  str_forall f s = true <-> Forall (fun c => f c = true) (list_ascii_of_string s).
Proof.
  induction s as [|c s IH]; cbn; [split; auto|].
  rewrite andb_true_iff, IH. split; [intros [H1 H2]; now constructor|].
  intros H; inversion H; auto.
Qed.

Lemma drop_space_suffix (l : list ascii) : exists p, l = (p ++ drop_space l)%list.
Proof.
  induction l as [|a l [p Hp]]; cbn; [now exists []|].
  destruct (py_isspace a); [exists (a :: p); cbn; now f_equal | now exists []].
Qed.

Lemma drop_space_head (l : list ascii) :
  match drop_space l with c :: _ => py_isspace c = false | [] => True end.
Proof.
  induction l as [|a l IH]; cbn; [exact I|].
  destruct (py_isspace a) eqn:E; [exact IH | exact E].
Qed.

Lemma drop_space_keep (l : list ascii) :
  match l with c :: _ => py_isspace c = false | [] => True end -> drop_space l = l.
Proof. destruct l as [|c l]; cbn; [auto|]. intros H. now rewrite H. Qed.

Lemma strip_idem (s : string) : strip (strip s) = strip s.
Proof.
  unfold strip at 1 2. rewrite list_ascii_of_string_of_list_ascii.
  set (l1 := drop_space (list_ascii_of_string s)).
  set (l2 := drop_space (rev l1)).
  destruct (drop_space_suffix (rev l1)) as [p Hp]. fold l2 in Hp.
  assert (Hl1 : l1 = (rev l2 ++ rev p)%list)
    by (rewrite <- rev_app_distr, <- Hp; now rewrite rev_involutive).
  rewrite (drop_space_keep (rev l2)).
  - rewrite rev_involutive, (drop_space_keep l2) by apply drop_space_head.
    reflexivity.
  - pose proof (drop_space_head (list_ascii_of_string s)) as H. fold l1 in H.
    rewrite Hl1 in H. destruct (rev l2); [exact I | exact H].
Qed.

Lemma strip_forall (f : ascii -> bool) (s : string) :
  str_forall f s = true -> str_forall f (strip s) = true.
Proof.
  rewrite !str_forall_list. intros H. unfold strip.
  rewrite list_ascii_of_string_of_list_ascii. apply Forall_rev.
  destruct (drop_space_suffix (list_ascii_of_string s)) as [p Hp].
  rewrite Hp in H. apply Forall_app in H as [_ H].
  apply Forall_rev in H.
  destruct (drop_space_suffix (rev (drop_space (list_ascii_of_string s)))) as [q Hq].
  rewrite Hq in H. now apply Forall_app in H as [_ H].
Qed.

Lemma list_ascii_of_string_append (a b : string) :
  list_ascii_of_string (String.append a b) =
  (list_ascii_of_string a ++ list_ascii_of_string b)%list.
Proof. induction a as [|c a IH]; cbn; [reflexivity | now rewrite IH]. Qed.

Lemma drop_space_snoc (l : list ascii) (c : ascii) : py_isspace c = true ->
  drop_space (l ++ [c])%list =
  match drop_space l with [] => [] | l' => (l' ++ [c])%list end.
Proof.
  intros Hc. induction l as [|a l IH]; cbn; [now rewrite Hc|].
  destruct (py_isspace a); [exact IH | reflexivity].
Qed.

Lemma strip_app_lf (b : string) :
  strip (String.append b (String LF EmptyString)) = strip b.
Proof.
  unfold strip. rewrite list_ascii_of_string_append. cbn [list_ascii_of_string].
  rewrite drop_space_snoc by reflexivity.
  destruct (drop_space (list_ascii_of_string b)) as [|x xs]; [reflexivity|].
  rewrite rev_app_distr. cbn [rev app drop_space].
  replace (py_isspace LF) with true by reflexivity. reflexivity.
Qed.

Lemma wf_lines_forall (ls : list string) : wf_lines ls ->
  Forall (fun l => exists b, str_forall plain_char b = true /\
            (l = String.append b (String LF EmptyString) \/ l = b)) ls.
Proof.
  induction 1 as [|b Hb Hne|b ls Hb _ IH]; constructor; eauto.
Qed.

(** X11. Every hostname the loader yields is its own [strip()] and holds
    no line break. *)
Theorem load_hostnames_stripped (content : string) :
  Forall (fun h => strip h = h /\ str_forall plain_char h = true)
    (load_hostnames content).
Proof.
  unfold load_hostnames. apply Forall_map.
  eapply Forall_impl; [|apply wf_lines_forall, py_lines_wf].
  intros l [b [Hb [-> | ->]]]; split; try apply strip_idem.
  - rewrite strip_app_lf. now apply strip_forall.
  - now apply strip_forall.
Qed.

Lemma translate_app : forall n a b, String.length a <= n -> no_lf_head b = true ->
  translate_newlines (String.append a b) =
  String.append (translate_newlines a) (translate_newlines b).
Proof.
  induction n as [|n IH]; intros a b Ha Hb.
  - destruct a; [reflexivity | cbn in Ha; lia].
  - destruct a as [|c r]; [reflexivity|]. cbn [String.length] in Ha.
    cbn [String.append translate_newlines]. destruct (Ascii.eqb c CR).
    + destruct r as [|c' r'].
      * cbn [String.append]. destruct b as [|c' b']; [reflexivity|].
        cbn [no_lf_head] in Hb. apply negb_true_iff in Hb. rewrite Hb.
        reflexivity.
      * cbn [String.length] in Ha. cbn [String.append].
        destruct (Ascii.eqb c' LF); cbn [String.append]; f_equal.
        -- apply IH; [lia | exact Hb].
        -- apply (IH (String c' r')); [cbn [String.length]; lia | exact Hb].
    + cbn [String.append]. f_equal. apply IH; [lia | exact Hb].
Qed.

Lemma lf_end_not_no_lf (b : string) :
  str_forall no_lf (String.append b (String LF EmptyString)) = false.
Proof.
  induction b as [|c b IH]; [reflexivity|].
  cbn [String.append str_forall]. now rewrite IH, andb_false_r.
Qed.

Lemma split_lines_app_in : forall x y cur l,
  str_forall no_lf cur = true ->
  In l (split_lines x cur) -> (exists b, l = String.append b (String LF EmptyString)) ->
  In l (split_lines (String.append x y) cur).
Proof.
  induction x as [|c x IH]; intros y cur l Hc Hl [b Hb].
  - exfalso. cbn [split_lines] in Hl.
    destruct cur as [|c0 cur]; [contradiction|].
    destruct Hl as [Hl|[]]. subst l.
    rewrite Hb, lf_end_not_no_lf in Hc. discriminate.
  - cbn [String.append split_lines] in Hl |- *. destruct (Ascii.eqb c LF) eqn:E.
    + destruct Hl as [Hl|Hl]; [now left|right].
      apply IH; [reflexivity | exact Hl | now exists b].
    + apply IH; [|exact Hl | now exists b].
      rewrite str_forall_app, Hc. cbn [str_forall]. unfold no_lf. now rewrite E.
Qed.

Lemma py_lines_app_in (a b : string) (l : string) :
  no_lf_head b = true -> In l (py_lines a) ->
  (exists e, l = String.append e (String LF EmptyString)) ->
  In l (py_lines (String.append a b)).
Proof.
  intros Hb Hl He. unfold py_lines in *.
  rewrite (translate_app (String.length a)) by (lia || exact Hb).
  now apply split_lines_app_in.
Qed.

Lemma log_line_no_lf_head (t : datetime) (m : string) :
  valid_dt t = true -> no_lf_head (log_line t m) = true.
Proof.
  intros Hv. pose proof (valid_dt_bounds t Hv) as (By & _).
  unfold log_line, log_entry, strftime_log.
  destruct (pad4_split (dt_year t) ltac:(lia)) as (a & b & c & d & Ha & _ & _ & _ & _ & ->).
  destruct (digit_facts a Ha) as (_ & _ & La & _).
  cbn [String.append no_lf_head]. now rewrite La.
Qed.

Lemma log_message_keeps (now_w now_p : datetime) (m file l : string) :
  valid_dt now_w = true -> In l (py_lines file) ->
  (exists b, l = String.append b (String LF EmptyString)) ->
  keep_entry now_p l = true ->
  In l (py_lines (log_message_v9 now_w now_p m file)).
Proof.
  intros Hv Hl He Hk. rewrite py_lines_log_message. apply filter_In. split.
  - apply py_lines_app_in; [now apply log_line_no_lf_head | exact Hl | exact He].
  - exact Hk.
Qed.

Lemma log_all_v9_keeps (times : nat -> datetime * datetime) (t_last : datetime)
    (l : string) :
  (forall j, valid_dt (fst (times j)) = true) ->
  (forall j, (to_us (snd (times j)) <= to_us t_last)%Z) ->
  (exists b, l = String.append b (String LF EmptyString)) ->
  keep_entry t_last l = true ->
  forall msgs k file, In l (py_lines file) ->
  In l (py_lines (log_all_v9 times k msgs file)).
Proof.
  intros Hv Ht He Hk. induction msgs as [|m ms IH]; intros k file Hl; [exact Hl|].
  cbn [log_all_v9]. apply IH. apply log_message_keeps; auto.
  now apply (keep_entry_earlier _ t_last).
Qed.

(** X12. A run of pingv9.py that gets an input file keeps every complete
    line of the old log that passes the purge test at a time no earlier
    than all the purges of the run. *)
Theorem main_v9_keeps_recent_lines (listing inputs : list string)
    (read_file : string -> string) (resolve : nat -> string -> resolve_outcome)
    (probe : nat -> string -> probe_outcome) (order : list nat)
    (times : nat -> datetime * datetime) (elapsed date_str prior : string)
    (f : string) (t_last : datetime) (l : string) :
  snd (select_txt_file listing inputs) = Chosen f ->
  (forall j, valid_dt (fst (times j)) = true) ->
  (forall j, (to_us (snd (times j)) <= to_us t_last)%Z) ->
  In l (py_lines prior) ->
  (exists b, l = String.append b (String LF EmptyString)) ->
  keep_entry t_last l = true ->
  In l (py_lines (run_log (main_v9 listing inputs read_file resolve probe order
                             times elapsed date_str prior))).
Proof.
  intros Hs Hv Ht Hl He Hk. unfold main_v9. rewrite Hs.
  destruct (collect_v9 resolve probe _ order [] counters0 []) as [[? ?] ?].
  cbn [run_log]. now apply (log_all_v9_keeps times t_last).
Qed.






Open Scope Z_scope.


Close Scope Z_scope.

Lemma drop_int_space_app (l b : list ascii) :
  drop_int_space (l ++ b) =
  match drop_int_space l with [] => drop_int_space b | d => (d ++ b)%list end.
Proof.
  induction l as [|c l IH]; [reflexivity|]. cbn [app drop_int_space].
  destruct (int_space c); [exact IH | reflexivity].
Qed.

Lemma drop_int_space_all (l : list ascii) :
  Forall (fun c => int_space c = true) l -> drop_int_space l = [].
Proof. induction 1 as [|c l Hc _ IH]; cbn; [reflexivity|]. now rewrite Hc. Qed.

Lemma int_strip_surrounding (a s b : string) :
  Forall (fun c => int_space c = true) (list_ascii_of_string a) ->
  Forall (fun c => int_space c = true) (list_ascii_of_string b) ->
  int_strip (String.append a (String.append s b)) = int_strip s.
Proof.
  intros Ha Hb. unfold int_strip. rewrite !list_ascii_of_string_append.
  rewrite drop_int_space_app, (drop_int_space_all _ Ha), drop_int_space_app.
  destruct (drop_int_space (list_ascii_of_string s)) as [|c d] eqn:E.
  - now rewrite (drop_int_space_all _ Hb).
  - f_equal. rewrite rev_app_distr, drop_int_space_app.
    now rewrite (drop_int_space_all _ (Forall_rev Hb)).
Qed.

Lemma py_int_surrounding_space (a s b : string) :
  Forall (fun c => int_space c = true) (list_ascii_of_string a) ->
  Forall (fun c => int_space c = true) (list_ascii_of_string b) ->
  py_int (String.append a (String.append s b)) = py_int s.
Proof. intros Ha Hb. unfold py_int. now rewrite int_strip_surrounding. Qed.

(** The loop reads each answer only through [int()]. *)
Lemma choose_loop_py_int_eq (t : list string) : forall ins1 ins2,
  Forall2 (fun x y => py_int x = py_int y) ins1 ins2 ->
  choose_loop t ins1 = choose_loop t ins2.
Proof.
  induction 1 as [|x y xs ys Hxy _ IH]; [reflexivity|].
  cbn [choose_loop]. now rewrite Hxy, IH.
Qed.

Lemma Forall2_py_int_refl (l : list string) :
  Forall2 (fun x y => py_int x = py_int y) l l.
Proof. induction l; constructor; auto. Qed.

(** X6. Whitespace that [int()] skips (ASCII 9..13 and 32, and the
    non-ASCII spaces 133 and 160) around any answer changes neither what
    [select_txt_file] prints nor what it returns. *)
Theorem select_txt_file_choice_whitespace (listing before rest : list string)
    (a s b : string) :
  Forall (fun c => int_space c = true) (list_ascii_of_string a) ->
  Forall (fun c => int_space c = true) (list_ascii_of_string b) ->
  select_txt_file listing (before ++ String.append a (String.append s b) :: rest)%list =
  select_txt_file listing (before ++ s :: rest)%list.
Proof.
  intros Ha Hb. unfold select_txt_file. cbv zeta.
  destruct (filter (endswith ".txt") listing) as [|f fs]; [reflexivity|].
  rewrite (choose_loop_py_int_eq (f :: fs) _ (before ++ s :: rest)%list);
    [reflexivity|].
  apply Forall2_app; [apply Forall2_py_int_refl|].
  constructor; [now apply py_int_surrounding_space | apply Forall2_py_int_refl].
Qed.

Lemma select_no_valid_answer (listing inputs : list string) (f : string) :
  Forall (fun s => forall j, py_int s = Some j ->
    (j < 1 \/ Z.of_nat (length (filter (endswith ".txt") listing)) < j)%Z) inputs ->
  snd (select_txt_file listing inputs) <> Chosen f.
Proof.
  intros Hin. pose proof (choose_loop_eof _ inputs Hin) as He.
  unfold select_txt_file; cbv zeta.
  destruct (filter (endswith ".txt") listing) as [|g gs]; [cbn; discriminate|].
  destruct (choose_loop (g :: gs) inputs). cbn in *. now rewrite He.
Qed.

(** X14. When no answer is a number of the menu (in particular when the
    directory holds no .txt file), [main] of pingV3.py and of pingv9.py
    ends, by its [return] or by the uncaught [EOFError], without touching
    the log file and without a report: pingV3.py clears its log only
    once a file is selected. *)
Theorem main_without_valid_answer (listing inputs : list string)
    (read_file : string -> string) (resolve : nat -> string -> resolve_outcome)
    (probe : nat -> string -> probe_outcome) (order : list nat)
    (stamp : nat -> string) (times : nat -> datetime * datetime)
    (elapsed date_str prior : string) :
  Forall (fun s => forall j, py_int s = Some j ->
    (j < 1 \/ Z.of_nat (length (filter (endswith ".txt") listing)) < j)%Z) inputs ->
  main_v3 listing inputs read_file resolve probe order stamp elapsed date_str prior =
    mkRun prior None /\
  main_v9 listing inputs read_file resolve probe order times elapsed date_str prior =
    mkRun prior None.
Proof.
  intros H. unfold main_v3, main_v9.
  destruct (snd (select_txt_file listing inputs)) as [|f|] eqn:E.
  - split; reflexivity.
  - exfalso. exact (select_no_valid_answer listing inputs f H E).
  - split; reflexivity.
Qed.

Lemma select_txt_file_first_accepted_witness :
  select_txt_file ["a.txt"; "b.csv"; "c.txt"]
    (["x"; "7"; String (ascii_of_nat 28) "2"] ++ "2" :: [])%list =
    (("Select a .txt file from the following list:" ++ String LF EmptyString)
       :: (menu_lines 1 (filter (endswith ".txt") ["a.txt"; "b.csv"; "c.txt"]) ++
           flat_map (fun s => [choice_prompt;
          match py_int s with
          | Some _ => String.append "Invalid choice. Please enter a number from the list."
                        (String LF EmptyString)
          | None => String.append "Invalid input. Please enter a number."
                      (String LF EmptyString)
          end]) ["x"; "7"; String (ascii_of_nat 28) "2"] ++
           [choice_prompt])%list,
     Chosen (nth (Z.to_nat (2 - 1)) (filter (endswith ".txt") ["a.txt"; "b.csv"; "c.txt"])
               EmptyString)).
Proof.
  apply select_txt_file_first_accepted.
  - vm_compute. discriminate.
  - apply Forall_forall. intros s Hs j Hj.
    destruct Hs as [<-|[<-|[<-|[]]]]; vm_compute in Hj.
    + discriminate Hj.
    + injection Hj as <-. right. reflexivity.
    + discriminate Hj.
  - reflexivity.
  - split; apply Z.leb_le; reflexivity.
Defined.

Lemma select_txt_file_eof_witness :
  snd (select_txt_file ["a.txt"; "b.csv"] ["x"; "0"; "2"]) = InputEOF.
Proof.
  apply select_txt_file_eof.
  - vm_compute. discriminate.
  - apply Forall_forall. intros s Hs j Hj.
    destruct Hs as [<-|[<-|[<-|[]]]]; vm_compute in Hj.
    + discriminate Hj.
    + injection Hj as <-. left. reflexivity.
    + injection Hj as <-. right. reflexivity.
Defined.

Lemma select_txt_file_menu_number_witness :
  nth 2 (fst (select_txt_file ["a.txt"; "b.csv"; "c.txt"] (nat_to_string 2 :: []))) EmptyString =
  (nat_to_string 2 ++ ". " ++ nth 1 (filter (endswith ".txt") ["a.txt"; "b.csv"; "c.txt"]) EmptyString
   ++ String LF EmptyString) /\
  snd (select_txt_file ["a.txt"; "b.csv"; "c.txt"] (nat_to_string 2 :: [])) =
  Chosen (nth 1 (filter (endswith ".txt") ["a.txt"; "b.csv"; "c.txt"]) EmptyString).
Proof. apply select_txt_file_menu_number; vm_compute; lia. Defined.

Lemma purge_old_logs_later_witness :
  purge_old_logs (mkDT 2024 6 16 12 0 0 0)
    (purge_old_logs (mkDT 2024 6 15 12 0 0 0)
       (String.append (log_line (mkDT 2024 6 7 12 0 0 0) "Starting to ping 2 hostnames...")
          (log_line (mkDT 2024 6 10 12 0 0 0) "Finished pinging."))) =
  purge_old_logs (mkDT 2024 6 16 12 0 0 0)
    (String.append (log_line (mkDT 2024 6 7 12 0 0 0) "Starting to ping 2 hostnames...")
       (log_line (mkDT 2024 6 10 12 0 0 0) "Finished pinging.")).
Proof. apply purge_old_logs_later. apply Z.leb_le. reflexivity. Defined.

Lemma main_without_valid_answer_witness :
  main_v3 ["a.txt"; "notes.md"] ["x"; String (ascii_of_nat 28) "1"; "3"]
    (fun _ => "printer01") (fun _ _ => GaiError) (fun _ _ => Returns PyNone) [0]
    (fun _ => "2024-06-15 12:00:00") "0.01" "15-Jun-24_12-00-00" "old line" =
    mkRun "old line" None /\
  main_v9 ["a.txt"; "notes.md"] ["x"; String (ascii_of_nat 28) "1"; "3"]
    (fun _ => "printer01") (fun _ _ => GaiError) (fun _ _ => Returns PyNone) [0]
    (fun _ => (mkDT 2024 6 15 12 0 0 0, mkDT 2024 6 15 12 0 0 100))
    "0.01" "15-Jun-24_12-00-00" "old line" = mkRun "old line" None.
Proof.
  apply main_without_valid_answer.
  apply Forall_forall. intros s Hs j Hj.
  destruct Hs as [<-|[<-|[<-|[]]]]; vm_compute in Hj.
  - discriminate Hj.
  - discriminate Hj.
  - injection Hj as <-. right. reflexivity.
Defined.

Lemma select_txt_file_choice_whitespace_witness :
  select_txt_file ["a.txt"; "b.txt"]
    (["x"] ++ String.append (String (ascii_of_nat 160) EmptyString)
                (String.append "2" (String (ascii_of_nat 9) EmptyString)) :: [])%list =
  select_txt_file ["a.txt"; "b.txt"] (["x"] ++ "2" :: [])%list.
Proof.
  apply select_txt_file_choice_whitespace; vm_compute; repeat constructor.
Defined.

Lemma main_v9_keeps_recent_lines_witness :
  In (log_line (mkDT 2024 6 14 12 0 0 0) "Finished pinging.")
    (py_lines (run_log (main_v9 ["hosts.txt"] ["1"] (fun _ => "printer01")
       (fun _ _ => GaiError) (fun _ _ => Returns PyNone) [0]
       (fun _ => (mkDT 2024 6 15 12 0 0 0, mkDT 2024 6 15 12 0 0 100))
       "0.01" "15-Jun-24_12-00-00"
       (log_line (mkDT 2024 6 14 12 0 0 0) "Finished pinging.")))).
Proof.
  apply (main_v9_keeps_recent_lines _ _ _ _ _ _ _ _ _ _ "hosts.txt" (mkDT 2024 6 15 12 0 0 100)).
  - reflexivity.
  - intros j. reflexivity.
  - intros j. apply Z.leb_le. reflexivity.
  - vm_compute. left. reflexivity.
  - exists (log_entry (mkDT 2024 6 14 12 0 0 0) "Finished pinging."). reflexivity.
  - vm_compute. reflexivity.
Defined.

